(** * MCP JSON-RPC endpoint of ontos: model of [routes/mcp_routes.py]

    The development embeds the JSON-RPC envelope codec, the scope matcher,
    the method dispatcher [MCPHandler.handle] with its five handlers and the
    request pipeline [mcp_handler].  Python values are a small inductive
    type, Python exceptions are the left summand of an outcome, and every
    call made to a collaborator (tool registry, tool, token store, logger,
    database session) is recorded in a trace of events. *)

From Stdlib Require Import String Ascii List ZArith.
Import ListNotations.
Local Open Scope string_scope.
Local Open Scope Z_scope.
Set Warnings "-register-all".

(** ** Python values *)

(** The values that travel through the endpoint: what [request.json()]
    yields and what [model_dump()] returns.  A [dict] keeps its insertion
    order, so it is an association list.  Numbers are the integers; JSON
    numbers with a fraction are left out. *)
Inductive pyval : Type :=
| PNone
| PBool (b : bool)
| PInt (z : Z)
| PStr (s : string)
| PList (l : list pyval)
| PDict (d : list (string * pyval)).

(** [bool(v)], the test behind [if not v] and [v or d]. *)
Definition truthy (v : pyval) : bool :=
  match v with
  | PNone => false
  | PBool b => b
  | PInt z => negb (z =? 0)
  | PStr s => negb (s =? "")%string
  | PList l => match l with [] => false | _ => true end
  | PDict d => match d with [] => false | _ => true end
  end.

(** A dict with string keys. *)
Definition dict (V : Type) : Type := list (string * V).

(** [d.get(k)] on a dict: the value bound to [k], if any. *)
Fixpoint dict_get {V : Type} (k : string) (d : list (string * V)) : option V :=
  match d with
  | [] => None
  | (k', v) :: d' => if (k' =? k)%string then Some v else dict_get k d'
  end.

(** [d.get(k, default)]. *)
Definition dict_get_default (k : string) (default : pyval)
    (d : list (string * pyval)) : pyval :=
  match dict_get k d with
  | Some v => v
  | None => default
  end.

(** ** Strings *)

Module Str.

(** [x in xs] for a list of strings. *)
Fixpoint mem (x : string) (xs : list string) : bool :=
  match xs with
  | [] => false
  | y :: ys => if (y =? x)%string then true else mem x ys
  end.

(** [c in s] for a one-character needle. *)
Fixpoint has_char (c : ascii) (s : string) : bool :=
  match s with
  | EmptyString => false
  | String a s' => if Ascii.eqb a c then true else has_char c s'
  end.

(** [s.split(c)] for a one-character separator: the fields between the
    occurrences of [c], never an empty list. *)
Fixpoint split (c : ascii) (s : string) : list string :=
  match s with
  | EmptyString => [EmptyString]
  | String a s' =>
      if Ascii.eqb a c then EmptyString :: split c s'
      else match split c s' with
           | [] => [String a EmptyString]
           | f :: fs => String a f :: fs
           end
  end.

(** [xs[0]]; the default is never used on the result of [split]. *)
Definition first (xs : list string) : string := hd EmptyString xs.

End Str.

(** ** Exceptions, events and the monad of the request *)

(** Instances of [Exception]: the endpoint's own [MCPError], which carries a
    JSON-RPC code, and every other one, of which the model keeps [str(e)]. *)
Inductive exn : Type :=
| MCPError (code : Z) (message : string) (data : pyval)
| OtherException (text : string).

(** [str(e)]; [MCPError.__init__] hands [message] to [Exception]. *)
Definition exn_str (e : exn) : string :=
  match e with
  | MCPError _ message _ => message
  | OtherException text => text
  end.

(** What a request does to the world around it, in order. *)
Inductive event : Type :=
| EvValidateToken (key : string)
| EvRequestJson
| EvCreateRegistry
| EvGetDefinitions
| EvRegistryGet (name : pyval)
| EvHasScope (required_scope : string)
| EvCreateContext
| EvExecute (tool_args : pyval)
| EvLogInfo (msg : string)
| EvLogError (msg : string)
| EvCommit
| EvRollback.

(** A computation: the events it made, and an exception or a value. *)
Definition M (A : Type) : Type := list event * (exn + A).

Definition ret {A : Type} (a : A) : M A := ([], inr a).

Definition raise {A : Type} (e : exn) : M A := ([], inl e).

Definition bind {A B : Type} (m : M A) (k : A -> M B) : M B :=
  match m with
  | (t, inl e) => (t, inl e)
  | (t, inr a) => let '(t', r) := k a in ((t ++ t')%list, r)
  end.

(** One call to a collaborator, with its outcome. *)
Definition call {A : Type} (ev : event) (outcome : exn + A) : M A :=
  ([ev], outcome).

Definition tell (ev : event) : M unit := call ev (inr tt).

(** [try: body / except Exception as e: handler e]. *)
Definition try_except {A : Type} (body : M A) (handler : exn -> M A) : M A :=
  match body with
  | (t, inl e) => let '(t', r) := handler e in ((t ++ t')%list, r)
  | (t, inr a) => (t, inr a)
  end.

Definition trace {A : Type} (m : M A) : list event := fst m.
Definition outcome {A : Type} (m : M A) : exn + A := snd m.

Declare Scope py_scope.
Delimit Scope py_scope with py.
Notation "x <- m ;; k" := (bind m (fun x => k))
  (at level 61, m at next level, right associativity) : py_scope.
Notation "m ;;; k" := (bind m (fun _ => k))
  (at level 61, right associativity) : py_scope.
Local Open Scope py_scope.

(** ** JSON-RPC data *)

(** JSON-RPC 2.0 Error Codes *)
Definition JSONRPC_PARSE_ERROR : Z := -32700.
Definition JSONRPC_INVALID_REQUEST : Z := -32600.
Definition JSONRPC_METHOD_NOT_FOUND : Z := -32601.
Definition JSONRPC_INVALID_PARAMS : Z := -32602.
Definition JSONRPC_INTERNAL_ERROR : Z := -32603.

(** Custom MCP Error Codes *)
Definition MCP_AUTH_FAILED : Z := -32001.
Definition MCP_AUTH_MISSING_SCOPE : Z := -32002.

(** [Union[str, int]], the type of a request identifier. *)
Inductive rpc_id : Type :=
| IdStr (s : string)
| IdInt (z : Z).

(** [JSONRPCRequest]. *)
Record JSONRPCRequest : Type := mkRequest {
  req_jsonrpc : string;
  req_method : string;
  req_params : option (dict pyval);
  req_id : option rpc_id
}.

(** [JSONRPCError]; [data] is [PNone] when there is none. *)
Record JSONRPCError : Type := mkError {
  err_code : Z;
  err_message : string;
  err_data : pyval
}.

(** [JSONRPCResponse]; [result] is [PNone] when there is none. *)
Record JSONRPCResponse : Type := mkResponse {
  resp_jsonrpc : string;
  resp_result : pyval;
  resp_error : option JSONRPCError;
  resp_id : option rpc_id
}.

(** [JSONRPCResponse(error=JSONRPCError(code=..., message=...))], the
    constructor call of the pipeline's early returns. *)
Definition JSONRPCResponse_error (code : Z) (message : string) : JSONRPCResponse :=
  {| resp_jsonrpc := "2.0";
     resp_result := PNone;
     resp_error := Some {| err_code := code; err_message := message; err_data := PNone |};
     resp_id := None |}.

Definition make_error_response (code : Z) (message : string) (data : pyval)
    (request_id : option rpc_id) : JSONRPCResponse :=
  {| resp_jsonrpc := "2.0";
     resp_result := PNone;
     resp_error := Some {| err_code := code; err_message := message; err_data := data |};
     resp_id := request_id |}.

Definition make_success_response (result : pyval) (request_id : option rpc_id)
    : JSONRPCResponse :=
  {| resp_jsonrpc := "2.0";
     resp_result := result;
     resp_error := None;
     resp_id := request_id |}.

(** A field is set when it is not [None]. *)
Definition is_set (v : pyval) : bool :=
  match v with PNone => false | _ => true end.

Definition result_set (r : JSONRPCResponse) : bool := is_set (resp_result r).

Definition error_set (r : JSONRPCResponse) : bool :=
  match resp_error r with Some _ => true | None => false end.

(** [model_dump()]: the response as a dict, all four fields present. *)
Definition dump_id (i : option rpc_id) : pyval :=
  match i with
  | None => PNone
  | Some (IdStr s) => PStr s
  | Some (IdInt z) => PInt z
  end.

Definition dump_error (e : option JSONRPCError) : pyval :=
  match e with
  | None => PNone
  | Some e => PDict [("code", PInt (err_code e));
                     ("message", PStr (err_message e));
                     ("data", err_data e)]
  end.

Definition model_dump (r : JSONRPCResponse) : pyval :=
  PDict [("jsonrpc", PStr (resp_jsonrpc r));
         ("result", resp_result r);
         ("error", dump_error (resp_error r));
         ("id", dump_id (resp_id r))].

(** ** Collaborators *)

(** An object the endpoint only passes along (settings, managers). *)
Inductive obj : Type := Obj (ident : nat).

(** [MCPTokenInfo], the fields the endpoint reads. *)
Record MCPTokenInfo : Type := mkTokenInfo {
  token_name : string;
  scopes : list string
}.

(** The database session, with the token store behind it:
    [MCPTokensManager(db=db).validate_token], [db.commit], [db.rollback]. *)
Record Session : Type := mkSession {
  validate_token : string -> exn + option MCPTokenInfo;
  commit : exn + unit;
  rollback : exn + unit
}.

(** [app.state], the optional managers probed with [getattr(..., None)]. *)
Record AppState : Type := mkAppState {
  workspace_client : option obj;
  data_products_manager : option obj;
  data_contracts_manager : option obj;
  semantic_models_manager : option obj;
  search_manager : option obj
}.

(** The transport's request: the application state and the outcome of
    [await request.json()]. *)
Record Request : Type := mkHttpRequest {
  app_state : AppState;
  json : exn + pyval
}.

(** [ToolContext]. *)
Record ToolContext : Type := mkToolContext {
  ctx_db : Session;
  ctx_settings : obj;
  ctx_workspace_client : option obj;
  ctx_data_products_manager : option obj;
  ctx_data_contracts_manager : option obj;
  ctx_semantic_models_manager : option obj;
  ctx_costs_manager : option obj;
  ctx_search_manager : option obj
}.

(** [ToolResult]. *)
Record ToolResult : Type := mkToolResult {
  success : bool;
  data : pyval;
  error : option string
}.

(** A tool.  [required_scope] is [None] when the object has no such
    attribute.  [execute ctx tool_args] is the outcome of evaluating
    [await tool.execute(ctx, ...)] on the unpacked [tool_args], the
    [TypeError] of a [tool_args] that is no mapping included. *)
Record Tool : Type := mkTool {
  required_scope : option string;
  execute : ToolContext -> pyval -> exn + ToolResult
}.

(** The tool registry: [get_mcp_definitions()] and [get(name)]. *)
Record ToolRegistry : Type := mkRegistry {
  get_mcp_definitions : exn + list (dict pyval);
  get : pyval -> exn + option Tool
}.

(** What the module takes from outside [mcp_routes.py]. *)
Record Runtime : Type := mkRuntime {
  (** [create_default_registry()] *)
  create_default_registry : exn + ToolRegistry;
  (** [datetime.utcnow().isoformat()] *)
  utcnow_isoformat : string;
  (** [str(v)] of a value that is no [str] *)
  builtin_str : pyval -> string;
  (** [json.dumps(v, default=str)] *)
  json_dumps : pyval -> exn + string;
  (** [str(e)] of the exception the constructor [JSONRPCRequest], given the
      unpacked body, raises on a body that is no request *)
  validation_error_str : pyval -> string
}.

(** [f"{v}"]. *)
Definition format_value (rt : Runtime) (v : pyval) : string :=
  match v with
  | PStr s => s
  | _ => builtin_str rt v
  end.

(** [x or default] on an optional string. *)
Definition str_or (x : option string) (default : string) : string :=
  match x with
  | Some s => if (s =? "")%string then default else s
  | None => default
  end.

(** [getattr(tool, "required_scope", "*")]. *)
Definition getattr_required_scope (tool : Tool) : string :=
  match required_scope tool with
  | Some s => s
  | None => "*"
  end.

(** ** The handler *)

(** [MCPHandler], its five attributes. *)
Record MCPHandler : Type := mkHandler {
  _db : Session;
  _settings : obj;
  _token_info : MCPTokenInfo;
  _request : Request;
  _tool_registry : ToolRegistry
}.

(** [MCPHandler.__init__]. *)
Definition MCPHandler_init (rt : Runtime) (db : Session) (settings : obj)
    (token_info : MCPTokenInfo) (request : Request) : M MCPHandler :=
  registry <- call EvCreateRegistry (create_default_registry rt) ;;
  ret {| _db := db; _settings := settings; _token_info := token_info;
         _request := request; _tool_registry := registry |}.

Definition colon : ascii := ":"%char.

(** [MCPHandler._has_scope]. *)
Definition _has_scope (self : MCPHandler) (required_scope : string) : bool :=
  let scopes := scopes (_token_info self) in
  (* Admin wildcard *)
  if Str.mem "*" scopes then true
  (* Exact match *)
  else if Str.mem required_scope scopes then true
  (* Prefix wildcard *)
  else if Str.has_char colon required_scope then
    let prefix := Str.first (Str.split colon required_scope) in
    if Str.mem (prefix ++ ":*") scopes then true else false
  else false.

(** A call of [self._has_scope], left in the trace. *)
Definition has_scope_call (self : MCPHandler) (required_scope : string) : M bool :=
  call (EvHasScope required_scope) (inr (_has_scope self required_scope)).

(** [MCPHandler._create_tool_context]. *)
Definition _create_tool_context (self : MCPHandler) : M ToolContext :=
  let app := app_state (_request self) in
  call EvCreateContext (inr
    {| ctx_db := _db self;
       ctx_settings := _settings self;
       ctx_workspace_client := workspace_client app;
       ctx_data_products_manager := data_products_manager app;
       ctx_data_contracts_manager := data_contracts_manager app;
       ctx_semantic_models_manager := semantic_models_manager app;
       ctx_costs_manager := None;
       ctx_search_manager := search_manager app |}).

Definition _handle_initialize (self : MCPHandler) (params : dict pyval) : M pyval :=
  ret (PDict [("protocolVersion", PStr "2024-11-05");
              ("serverInfo", PDict [("name", PStr "ontos-mcp-server");
                                    ("version", PStr "1.0.0")]);
              ("capabilities", PDict [("tools", PDict [])])]).

Definition _handle_initialized (self : MCPHandler) (params : dict pyval) : M pyval :=
  ret (PDict []).

Definition _handle_ping (rt : Runtime) (self : MCPHandler) (params : dict pyval)
    : M pyval :=
  ret (PDict [("pong", PBool true); ("timestamp", PStr (utcnow_isoformat rt))]).

(** [tool_def["name"]]. *)
Definition tool_def_name (tool_def : dict pyval) : M pyval :=
  match dict_get "name" tool_def with
  | Some v => ret v
  | None => raise (OtherException "'name'")
  end.

(** The loop of [_handle_tools_list] over [all_tools]. *)
Fixpoint filter_tools (self : MCPHandler) (all_tools : list (dict pyval))
    (filtered_tools : list pyval) : M (list pyval) :=
  match all_tools with
  | [] => ret filtered_tools
  | tool_def :: rest =>
      name <- tool_def_name tool_def ;;
      tool <- call (EvRegistryGet name) (get (_tool_registry self) name) ;;
      match tool with
      | Some tool =>
          let required_scope := getattr_required_scope tool in
          ok <- has_scope_call self required_scope ;;
          if ok
          then filter_tools self rest (filtered_tools ++ [PDict tool_def])%list
          else filter_tools self rest filtered_tools
      | None => filter_tools self rest filtered_tools
      end
  end.

Definition _handle_tools_list (self : MCPHandler) (params : dict pyval) : M pyval :=
  all_tools <- call EvGetDefinitions (get_mcp_definitions (_tool_registry self)) ;;
  (* Filter tools by scope *)
  filtered_tools <- filter_tools self all_tools [] ;;
  ret (PDict [("tools", PList filtered_tools)]).

(** The content block of a tool outcome. *)
Definition text_content (text : string) (isError : bool) : pyval :=
  PDict [("content", PList [PDict [("type", PStr "text"); ("text", PStr text)]]);
         ("isError", PBool isError)].

Definition _handle_tools_call (rt : Runtime) (self : MCPHandler)
    (params : dict pyval) : M pyval :=
  let tool_name := dict_get_default "name" PNone params in
  let tool_args := dict_get_default "arguments" (PDict []) params in
  if negb (truthy tool_name)
  then raise (MCPError JSONRPC_INVALID_PARAMS "Missing tool name" PNone)
  else
    (* Get the tool *)
    tool <- call (EvRegistryGet tool_name) (get (_tool_registry self) tool_name) ;;
    match tool with
    | None =>
        raise (MCPError JSONRPC_METHOD_NOT_FOUND
                 ("Tool not found: " ++ format_value rt tool_name) PNone)
    | Some tool =>
        (* Check scope *)
        let required_scope := getattr_required_scope tool in
        ok <- has_scope_call self required_scope ;;
        if negb ok
        then raise (MCPError MCP_AUTH_MISSING_SCOPE
                      ("Missing required scope: " ++ required_scope)
                      (PDict [("required_scope", PStr required_scope);
                              ("token_scopes",
                               PList (map PStr (scopes (_token_info self))))]))
        else
          (* Create tool context *)
          ctx <- _create_tool_context self ;;
          (* Execute the tool *)
          try_except
            (result <- call (EvExecute tool_args) (execute tool ctx tool_args) ;;
             (* Format result for MCP *)
             if success result
             then text <- (([], json_dumps rt (data result)) : M string) ;;
                  ret (text_content text false)
             else ret (text_content (str_or (error result) "Unknown error") true))
            (fun e =>
               tell (EvLogError ("Error executing tool " ++ format_value rt tool_name
                                 ++ ": " ++ exn_str e)) ;;;
               ret (text_content ("Tool execution failed: " ++ exn_str e) true))
    end.

(** The method table of [handle]. *)
Definition handlers (rt : Runtime) (self : MCPHandler)
    : dict (dict pyval -> M pyval) :=
  [("initialize", _handle_initialize self);
   ("notifications/initialized", _handle_initialized self);
   ("ping", _handle_ping rt self);
   ("tools/list", _handle_tools_list self);
   ("tools/call", _handle_tools_call rt self)].


(** [rpc_request.params or {}]. *)
Definition params_or_empty (params : option (dict pyval)) : dict pyval :=
  match params with
  | Some d => d
  | None => []
  end.

(** [MCPHandler.handle]. *)
Definition handle (rt : Runtime) (self : MCPHandler) (rpc_request : JSONRPCRequest)
    : M JSONRPCResponse :=
  let method := req_method rpc_request in
  let params := params_or_empty (req_params rpc_request) in
  let request_id := req_id rpc_request in
  match dict_get method (handlers rt self) with
  | None =>
      ret (make_error_response JSONRPC_METHOD_NOT_FOUND
             ("Method not found: " ++ method) PNone request_id)
  | Some handler =>
      try_except
        (result <- handler params ;;
         ret (make_success_response result request_id))
        (fun e =>
           match e with
           | MCPError code message data =>
               ret (make_error_response code message data request_id)
           | OtherException _ =>
               tell (EvLogError ("Error handling MCP method " ++ method ++ ": "
                                 ++ exn_str e)) ;;;
               ret (make_error_response JSONRPC_INTERNAL_ERROR
                      ("Internal error: " ++ exn_str e) PNone request_id)
           end)
  end.

(** ** The pipeline *)

(** The fields of [JSONRPCRequest], each validated against its annotation. *)
Definition field_jsonrpc (body : dict pyval) : option string :=
  match dict_get "jsonrpc" body with
  | None => Some "2.0"
  | Some (PStr s) => Some s
  | Some _ => None
  end.

Definition field_method (body : dict pyval) : option string :=
  match dict_get "method" body with
  | Some (PStr s) => Some s
  | _ => None
  end.

Definition field_params (body : dict pyval) : option (option (dict pyval)) :=
  match dict_get "params" body with
  | None | Some PNone => Some None
  | Some (PDict d) => Some (Some d)
  | Some _ => None
  end.

(** [Optional[Union[str, int]]]: a string or an integer as it is, a boolean
    as the integer it converts to. *)
Definition field_id (body : dict pyval) : option (option rpc_id) :=
  match dict_get "id" body with
  | None | Some PNone => Some None
  | Some (PStr s) => Some (Some (IdStr s))
  | Some (PInt z) => Some (Some (IdInt z))
  | Some (PBool b) => Some (Some (IdInt (if b then 1 else 0)))
  | Some _ => None
  end.

(** The constructor [JSONRPCRequest] on the unpacked body: a body that is no
    mapping, or a field that does not validate, raises. *)
Definition JSONRPCRequest_init (rt : Runtime) (body : pyval) : exn + JSONRPCRequest :=
  match body with
  | PDict d =>
      match field_jsonrpc d, field_method d, field_params d, field_id d with
      | Some jsonrpc, Some method, Some params, Some id =>
          inr {| req_jsonrpc := jsonrpc; req_method := method;
                 req_params := params; req_id := id |}
      | _, _, _, _ => inl (OtherException (validation_error_str rt body))
      end
  | _ => inl (OtherException (validation_error_str rt body))
  end.

(** [if not x_api_key] on the optional header. *)
Definition header_present (x_api_key : option string) : option string :=
  match x_api_key with
  | Some key => if (key =? "")%string then None else Some key
  | None => None
  end.

(** A [try] whose [except] branch returns from the function: the early
    response, or the value to go on with. *)
Definition try_or_return {A : Type} (body : M A) (early : exn -> pyval)
    : M (pyval + A) :=
  try_except (a <- body ;; ret (inr a)) (fun e => ret (inl (early e))).

(** [mcp_handler], the endpoint. *)
Definition mcp_handler (rt : Runtime) (request : Request) (db : Session)
    (settings : obj) (x_api_key : option string) : M pyval :=
  (* Validate API key *)
  match header_present x_api_key with
  | None =>
      ret (model_dump (JSONRPCResponse_error MCP_AUTH_FAILED "Missing X-API-Key header"))
  | Some key =>
      (* Validate token *)
      token_info <- call (EvValidateToken key) (validate_token db key) ;;
      match token_info with
      | None =>
          ret (model_dump (JSONRPCResponse_error MCP_AUTH_FAILED
                             "Invalid or expired API key"))
      | Some token_info =>
          (* Parse request body *)
          body <- try_or_return (call EvRequestJson (json request))
                    (fun e => model_dump (JSONRPCResponse_error JSONRPC_PARSE_ERROR
                                            ("Failed to parse JSON: " ++ exn_str e))) ;;
          match body with
          | inl early => ret early
          | inr body =>
              (* Validate JSON-RPC format *)
              rpc_request <- try_or_return (([], JSONRPCRequest_init rt body)
                                            : M JSONRPCRequest)
                    (fun e => model_dump (JSONRPCResponse_error JSONRPC_INVALID_REQUEST
                                            ("Invalid request: " ++ exn_str e))) ;;
              match rpc_request with
              | inl early => ret early
              | inr rpc_request =>
                  (* Log the request *)
                  tell (EvLogInfo ("MCP request: method=" ++ req_method rpc_request
                                   ++ ", token=" ++ token_name token_info)) ;;;
                  (* Handle the request *)
                  handler <- MCPHandler_init rt db settings token_info request ;;
                  response <- handle rt handler rpc_request ;;
                  (* Commit any changes *)
                  try_except (call EvCommit (commit db))
                    (fun e =>
                       tell (EvLogError ("Error committing MCP changes: "
                                         ++ exn_str e)) ;;;
                       call EvRollback (rollback db)) ;;;
                  ret (model_dump response)
              end
          end
      end
  end.

(** ** A small deployment, to run the endpoint on *)

Module Demo.

Definition done : ToolResult :=
  {| success := true; data := PStr "done"; error := None |}.

(** A tool that declares [scope] and succeeds. *)
Definition tool_ok (scope : option string) : Tool :=
  {| required_scope := scope; execute := fun _ _ => inr done |}.

(** A tool whose [execute] raises. *)
Definition tool_crash : Tool :=
  {| required_scope := Some "data:read";
     execute := fun _ _ => inl (OtherException "boom") |}.

(** Four tools: a reader, a writer, one that crashes and one that declares
    no scope. *)
Definition registry : ToolRegistry :=
  {| get_mcp_definitions :=
       inr [[("name", PStr "search")]; [("name", PStr "update")];
            [("name", PStr "crash")]; [("name", PStr "legacy")]];
     get := fun name =>
       match name with
       | PStr s =>
           if (s =? "search")%string then inr (Some (tool_ok (Some "data:read")))
           else if (s =? "update")%string then inr (Some (tool_ok (Some "data:write")))
           else if (s =? "crash")%string then inr (Some tool_crash)
           else if (s =? "legacy")%string then inr (Some (tool_ok None))
           else inr None
       | _ => inr None
       end |}.

Definition rt : Runtime :=
  {| create_default_registry := inr registry;
     utcnow_isoformat := "2024-11-05T00:00:00";
     builtin_str := fun _ => "<value>";
     json_dumps := fun v => inr (match v with PStr s => s | _ => "<json>" end);
     validation_error_str := fun _ => "validation error" |}.

Definition reader : MCPTokenInfo := {| token_name := "reader"; scopes := ["data:read"] |}.
Definition admin : MCPTokenInfo := {| token_name := "admin"; scopes := ["*"] |}.
Definition data_all : MCPTokenInfo := {| token_name := "data"; scopes := ["data:*"] |}.

(** The store knows two keys. *)
Definition db : Session :=
  {| validate_token := fun key =>
       if (key =? "reader-key")%string then inr (Some reader)
       else if (key =? "admin-key")%string then inr (Some admin)
       else inr None;
     commit := inr tt;
     rollback := inr tt |}.

Definition settings : obj := Obj 0.

Definition state : AppState :=
  {| workspace_client := None; data_products_manager := None;
     data_contracts_manager := None; semantic_models_manager := None;
     search_manager := None |}.

(** A request with the given parsed body. *)
Definition request (body : pyval) : Request :=
  {| app_state := state; json := inr body |}.

Definition handler (token_info : MCPTokenInfo) : MCPHandler :=
  {| _db := db; _settings := settings; _token_info := token_info;
     _request := request PNone; _tool_registry := registry |}.

(** [tools/call] of the tool [name], with identifier 42. *)
Definition call_tool (name : string) : JSONRPCRequest :=
  {| req_jsonrpc := "2.0"; req_method := "tools/call";
     req_params := Some [("name", PStr name)]; req_id := Some (IdInt 42) |}.

Definition list_tools : JSONRPCRequest :=
  {| req_jsonrpc := "2.0"; req_method := "tools/list";
     req_params := None; req_id := Some (IdInt 42) |}.

(** A body with an identifier and no method. *)
Definition body_without_method : pyval :=
  PDict [("jsonrpc", PStr "2.0"); ("id", PInt 7)].

Definition body_ping : pyval :=
  PDict [("jsonrpc", PStr "2.0"); ("method", PStr "ping"); ("id", PInt 42)].

End Demo.

(** ** Listing, as a filter *)

(** Whether [_handle_tools_list] keeps a definition: it has a name, the
    registry knows a tool by that name, and the token has the tool's scope. *)
Definition tool_visible (self : MCPHandler) (tool_def : dict pyval) : bool :=
  match dict_get "name" tool_def with
  | Some name =>
      match get (_tool_registry self) name with
      | inr (Some tool) => _has_scope self (getattr_required_scope tool)
      | _ => false
      end
  | None => false
  end.

(** Every definition has a name the registry answers for. *)
Definition registry_answers (self : MCPHandler) (all_tools : list (dict pyval)) : Prop :=
  forall tool_def, In tool_def all_tools ->
    exists name tool, dict_get "name" tool_def = Some name
                      /\ get (_tool_registry self) name = inr tool.

(** ** Token management: model of [routes/mcp_tokens_routes.py] *)

Module TokenRoutes.

(** A [UUID], by its canonical text. *)
Definition UUID : Type := string.

(** A [datetime], by its text. *)
Definition datetime : Type := string.

(** An exception raised by a collaborator, of which the routes read
    [str(e)]. *)
Inductive raised : Type := Raised (text : string).

Definition raised_str (e : raised) : string :=
  match e with Raised text => text end.

(** How a route ends when it does not return: with the [HTTPException] it
    raised itself, or with the exception of a collaborator it let through. *)
Inductive failure : Type :=
| HTTPException (status_code : Z) (detail : string)
| Propagated (e : raised).

Definition HTTP_404_NOT_FOUND : Z := 404.
Definition HTTP_500_INTERNAL_SERVER_ERROR : Z := 500.

Inductive level : Type := DEBUG | INFO | ERROR.

(** The calls a route makes, in order.  Of a log record the level is kept. *)
Inductive ev : Type :=
| EvLog (lvl : level)
| EvGenerateToken (name : string) (scopes : list string)
    (created_by : option string) (expires_days : option Z)
| EvListTokens (include_inactive : bool)
| EvGetToken (token_id : UUID)
| EvRevokeToken (token_id : UUID)
| EvDeleteToken (token_id : UUID)
| EvDbCommit
| EvDbRollback.

(** A computation that may raise an [E]. *)
Definition Eff (E A : Type) : Type := list ev * (E + A).

Definition ret {E A : Type} (a : A) : Eff E A := ([], inr a).

Definition raise {E A : Type} (e : E) : Eff E A := ([], inl e).

Definition bind {E A B : Type} (m : Eff E A) (k : A -> Eff E B) : Eff E B :=
  match m with
  | (t, inl e) => (t, inl e)
  | (t, inr a) => let '(t', r) := k a in ((t ++ t')%list, r)
  end.

Definition call {E A : Type} (e : ev) (outcome : E + A) : Eff E A := ([e], outcome).

Definition log {E : Type} (lvl : level) : Eff E unit := ([EvLog lvl], inr tt).

(** [try: body / except Exception as e: handler e]. *)
Definition try_except {E E' A : Type} (body : Eff E A) (handler : E -> Eff E' A)
    : Eff E' A :=
  match body with
  | (t, inl e) => let '(t', r) := handler e in ((t ++ t')%list, r)
  | (t, inr a) => (t, inr a)
  end.

(** A call outside any [try]: what the collaborator raises goes through. *)
Definition propagate {A : Type} (m : Eff raised A) : Eff failure A :=
  try_except m (fun e => raise (Propagated e)).

Declare Scope eff_scope.
Notation "x <- m ;; k" := (bind m (fun x => k))
  (at level 61, m at next level, right associativity) : eff_scope.
Notation "m ;;; k" := (bind m (fun _ => k))
  (at level 61, right associativity) : eff_scope.
Local Open Scope eff_scope.

(** A stored token, as the manager hands it out. *)
Record TokenRow : Type := mkRow {
  row_id : UUID;
  row_name : string;
  row_scopes : option (list string);
  row_created_by : option string;
  row_created_at : datetime;
  row_last_used_at : option datetime;
  row_expires_at : option datetime;
  row_is_active : bool;
  row_is_expired : bool
}.

(** [MCPTokenInfo] of [models/mcp_tokens], the shape of a listed token. *)
Record MCPTokenInfo : Type := mkInfo {
  info_id : UUID;
  info_name : string;
  info_scopes : list string;
  info_created_by : option string;
  info_created_at : datetime;
  info_last_used_at : option datetime;
  info_expires_at : option datetime;
  info_is_active : bool;
  info_is_expired : bool
}.

(** [MCPTokenList]. *)
Record MCPTokenList : Type := mkList {
  tokens : list MCPTokenInfo;
  total : nat
}.

(** [MCPTokenCreate]. *)
Record MCPTokenCreate : Type := mkCreate {
  create_name : string;
  create_scopes : list string;
  create_expires_days : option Z
}.

(** What [generate_token] returns: the only place the plaintext is seen. *)
Record GeneratedToken : Type := mkGenerated {
  gen_id : UUID;
  gen_name : string;
  gen_token : string;
  gen_scopes : list string;
  gen_created_at : datetime;
  gen_expires_at : option datetime
}.

(** [MCPTokenResponse]. *)
Record MCPTokenResponse : Type := mkTokenResponse {
  out_id : UUID;
  out_name : string;
  out_token : string;
  out_scopes : list string;
  out_created_at : datetime;
  out_expires_at : option datetime
}.

(** The current user, of which the route reads [email]. *)
Record User : Type := mkUser { email : option string }.

(** [MCPTokensManager(db=db)]. *)
Record MCPTokensManager : Type := mkManager {
  generate_token : string -> list string -> option string -> option Z
                   -> raised + GeneratedToken;
  list_tokens : bool -> raised + list TokenRow;
  get_token : UUID -> raised + option TokenRow;
  revoke_token : UUID -> raised + bool;
  delete_token : UUID -> raised + bool
}.

(** The session: [db.commit()] and [db.rollback()]. *)
Record Db : Type := mkDb {
  db_commit : raised + unit;
  db_rollback : raised + unit
}.

(** [scopes or []]. *)
Definition scopes_or_empty (scopes : option (list string)) : list string :=
  match scopes with
  | Some l => l
  | None => []
  end.

(** The [MCPTokenInfo(...)] both readers build from a stored token. *)
Definition token_info_of (t : TokenRow) : MCPTokenInfo :=
  {| info_id := row_id t;
     info_name := row_name t;
     info_scopes := scopes_or_empty (row_scopes t);
     info_created_by := row_created_by t;
     info_created_at := row_created_at t;
     info_last_used_at := row_last_used_at t;
     info_expires_at := row_expires_at t;
     info_is_active := row_is_active t;
     info_is_expired := row_is_expired t |}.

(** [create_mcp_token]. *)
Definition create_mcp_token (manager : MCPTokensManager) (db : Db)
    (token_data : MCPTokenCreate) (current_user : option User)
    : Eff failure MCPTokenResponse :=
  log INFO ;;;
  (* Get current user email *)
  let created_by := match current_user with
                    | Some u => email u
                    | None => None
                    end in
  try_except
    (generated <- call (EvGenerateToken (create_name token_data)
                          (create_scopes token_data) created_by
                          (create_expires_days token_data))
                    (generate_token manager (create_name token_data)
                       (create_scopes token_data) created_by
                       (create_expires_days token_data)) ;;
     call EvDbCommit (db_commit db) ;;;
     log INFO ;;;
     ret {| out_id := gen_id generated;
            out_name := gen_name generated;
            out_token := gen_token generated;
            out_scopes := gen_scopes generated;
            out_created_at := gen_created_at generated;
            out_expires_at := gen_expires_at generated |})
    (fun e =>
       log ERROR ;;;
       propagate (call EvDbRollback (db_rollback db)) ;;;
       raise (HTTPException HTTP_500_INTERNAL_SERVER_ERROR
                ("Failed to create token: " ++ raised_str e))).

(** [list_mcp_tokens]. *)
Definition list_mcp_tokens (manager : MCPTokensManager) (include_inactive : bool)
    : Eff failure MCPTokenList :=
  log DEBUG ;;;
  tokens <- propagate (call (EvListTokens include_inactive)
                         (list_tokens manager include_inactive)) ;;
  let token_infos := map token_info_of tokens in
  ret {| tokens := token_infos; total := length token_infos |}.

(** [get_mcp_token]. *)
Definition get_mcp_token (manager : MCPTokensManager) (token_id : UUID)
    : Eff failure MCPTokenInfo :=
  token <- propagate (call (EvGetToken token_id) (get_token manager token_id)) ;;
  match token with
  | None =>
      raise (HTTPException HTTP_404_NOT_FOUND ("Token " ++ token_id ++ " not found"))
  | Some token => ret (token_info_of token)
  end.

(** [revoke_mcp_token]. *)
Definition revoke_mcp_token (manager : MCPTokensManager) (db : Db) (token_id : UUID)
    : Eff failure unit :=
  log INFO ;;;
  success <- propagate (call (EvRevokeToken token_id)
                          (revoke_token manager token_id)) ;;
  if negb success
  then raise (HTTPException HTTP_404_NOT_FOUND ("Token " ++ token_id ++ " not found"))
  else
    propagate (call EvDbCommit (db_commit db)) ;;;
    log INFO.

(** [delete_mcp_token]. *)
Definition delete_mcp_token (manager : MCPTokensManager) (db : Db) (token_id : UUID)
    : Eff failure unit :=
  log INFO ;;;
  success <- propagate (call (EvDeleteToken token_id)
                          (delete_token manager token_id)) ;;
  if negb success
  then raise (HTTPException HTTP_404_NOT_FOUND ("Token " ++ token_id ++ " not found"))
  else
    propagate (call EvDbCommit (db_commit db)) ;;;
    log INFO.

End TokenRoutes.

(** ** A small token store, to run the routes on *)

Module TokenDemo.

Import TokenRoutes.

Definition first_id : UUID := "11111111-1111-1111-1111-111111111111".
Definition second_id : UUID := "22222222-2222-2222-2222-222222222222".

(** A token stored without scopes. *)
Definition first_row : TokenRow :=
  {| row_id := first_id; row_name := "ci"; row_scopes := None;
     row_created_by := None; row_created_at := "2025-01-01T00:00:00";
     row_last_used_at := None; row_expires_at := None;
     row_is_active := true; row_is_expired := false |}.

Definition second_row : TokenRow :=
  {| row_id := second_id; row_name := "reader"; row_scopes := Some ["data:read"];
     row_created_by := Some "ada@example.org";
     row_created_at := "2025-02-01T00:00:00";
     row_last_used_at := None; row_expires_at := None;
     row_is_active := true; row_is_expired := false |}.

Definition manager : MCPTokensManager :=
  {| generate_token := fun name scopes created_by expires_days =>
       inr {| gen_id := second_id; gen_name := name; gen_token := "mcp_plaintext";
              gen_scopes := scopes; gen_created_at := "2025-02-01T00:00:00";
              gen_expires_at := None |};
     list_tokens := fun _ => inr [first_row; second_row];
     get_token := fun token_id =>
       if (token_id =? first_id)%string then inr (Some first_row) else inr None;
     revoke_token := fun token_id => inr (token_id =? first_id)%string;
     delete_token := fun token_id => inr (token_id =? first_id)%string |}.

(** A manager whose [generate_token] raises. *)
Definition broken_manager : MCPTokensManager :=
  {| generate_token := fun _ _ _ _ => inl (Raised "duplicate name");
     list_tokens := list_tokens manager;
     get_token := get_token manager;
     revoke_token := revoke_token manager;
     delete_token := delete_token manager |}.

Definition db : Db := {| db_commit := inr tt; db_rollback := inr tt |}.

Definition ada : User := {| email := Some "ada@example.org" |}.

Definition new_token : MCPTokenCreate :=
  {| create_name := "reader"; create_scopes := ["data:read"];
     create_expires_days := Some 30 |}.

End TokenDemo.

(** ** The [commentstatus] migration: model of revision [r8355n269pp2] *)

Module Migration.

(** The part of the catalog the migration reads and writes: the labels of
    the enum type [commentstatus], in their order, when the type exists. *)
Definition catalog : Type := option (list string).

(** The statements that change the catalog. *)
Inductive ddl : Type :=
| CreateEnum (labels : list string)
| AddValueIfNotExists (label : string).

(** [SELECT 1 FROM pg_type WHERE typname = 'commentstatus'], then
    [result.scalar()]. *)
Definition select_type (c : catalog) : option Z :=
  match c with
  | Some _ => Some 1
  | None => None
  end.

(** [SELECT enumlabel FROM pg_enum WHERE enumtypid = ...]. *)
Definition select_labels (c : catalog) : list string :=
  match c with
  | Some labels => labels
  | None => []
  end.

(** [ENUM(...).create(conn, checkfirst=True)]: the type is created unless it
    is there.  The statement is sent when the type is created. *)
Definition create_checkfirst (labels : list string) (c : catalog)
    : list ddl * catalog :=
  match c with
  | Some _ => ([], c)
  | None => ([CreateEnum labels], Some labels)
  end.

(** [ALTER TYPE commentstatus ADD VALUE IF NOT EXISTS 'value']: a new label
    goes after the others. *)
Definition add_value_if_not_exists (value : string) (c : catalog)
    : list ddl * catalog :=
  ([AddValueIfNotExists value],
   match c with
   | Some labels =>
       if Str.mem value labels then Some labels else Some (labels ++ [value])%list
   | None => None
   end).

Definition required_values : list string := ["active"; "deleted"].

(** The loop of [upgrade] over [required_values], against the labels read
    before it. *)
Fixpoint add_missing (values existing_values : list string) (c : catalog)
    : list ddl * catalog :=
  match values with
  | [] => ([], c)
  | value :: rest =>
      if negb (Str.mem value existing_values)
      then let '(s, c') := add_value_if_not_exists value c in
           let '(s', c'') := add_missing rest existing_values c' in
           ((s ++ s')%list, c'')
      else add_missing rest existing_values c
  end.

(** [upgrade]: the statements sent and the catalog after them. *)
Definition upgrade (c : catalog) : list ddl * catalog :=
  (* Check if the enum type exists *)
  let enum_exists := match select_type c with Some _ => true | None => false end in
  if negb enum_exists
  then (* Create the enum type *)
       create_checkfirst ["active"; "deleted"] c
  else (* Enum exists, ensure all required values are present *)
       let existing_values := select_labels c in
       add_missing required_values existing_values c.

(** [downgrade]: the enum is not dropped. *)
Definition downgrade (c : catalog) : list ddl * catalog := ([], c).

End Migration.

(** * Properties *)

(** ** Facts about the string helpers *)

Lemma mem_In (x : string) (xs : list string) :
  Str.mem x xs = true <-> In x xs.
Proof.
  induction xs as [|y ys IH]; simpl.
  - split; [discriminate | tauto].
  - destruct (String.eqb_spec y x) as [->|Hne].
    + split; auto.
    + rewrite IH. split; [auto | intros [H|H]; [congruence | exact H]].
Qed.

Lemma mem_false_not_In (x : string) (xs : list string) :
  Str.mem x xs = false <-> ~ In x xs.
Proof.
  rewrite <- mem_In. destruct (Str.mem x xs); split; congruence.
Qed.

(** A string with a [c] in it is its first field, then [c], then the rest;
    the first field holds no [c]. *)
Lemma split_first_decompose (c : ascii) (s : string) :
  Str.has_char c s = true ->
  exists rest, s = Str.first (Str.split c s) ++ String c rest
               /\ Str.has_char c (Str.first (Str.split c s)) = false.
Proof.
  induction s as [|a s IH]; simpl; [discriminate|].
  destruct (Ascii.eqb_spec a c) as [->|Hne].
  - intros _. exists s. split; reflexivity.
  - intros H. destruct (IH H) as [rest [Heq Hno]].
    exists rest. unfold Str.first in *.
    destruct (Str.split c s) as [|f fs]; simpl in *.
    + split.
      * rewrite Heq at 1. reflexivity.
      * destruct (Ascii.eqb_spec a c); [contradiction | reflexivity].
    + split.
      * rewrite Heq at 1. reflexivity.
      * destruct (Ascii.eqb_spec a c); [contradiction | exact Hno].
Qed.

(** The first field of [p ++ c ++ rest] is [p] when [p] holds no [c]. *)
Lemma split_first_app (c : ascii) (p rest : string) :
  Str.has_char c p = false ->
  Str.first (Str.split c (p ++ String c rest)) = p.
Proof.
  induction p as [|a p IH]; simpl.
  - intros _. rewrite Ascii.eqb_refl. reflexivity.
  - destruct (Ascii.eqb a c) eqn:E; [discriminate|].
    intros H. specialize (IH H). unfold Str.first in *.
    destruct (Str.split c (p ++ String c rest)) as [|f fs]; simpl in *.
    + subst p. reflexivity.
    + subst f. reflexivity.
Qed.

Lemma has_char_app (c : ascii) (p rest : string) :
  Str.has_char c (p ++ String c rest) = true.
Proof.
  induction p as [|a p IH]; simpl.
  - rewrite Ascii.eqb_refl. reflexivity.
  - destruct (Ascii.eqb a c); [reflexivity | exact IH].
Qed.

(** ** The scope matcher *)

(** The three rules of the matcher, as membership in the granted scopes. *)
Lemma has_scope_iff (self : MCPHandler) (required_scope : string) :
  _has_scope self required_scope = true <->
    In "*" (scopes (_token_info self))
    \/ In required_scope (scopes (_token_info self))
    \/ exists prefix rest,
         required_scope = prefix ++ String colon rest
         /\ Str.has_char colon prefix = false
         /\ In (prefix ++ ":*") (scopes (_token_info self)).
Proof.
  unfold _has_scope.
  destruct (Str.mem "*" (scopes (_token_info self))) eqn:Hstar.
  { apply mem_In in Hstar. tauto. }
  destruct (Str.mem required_scope (scopes (_token_info self))) eqn:Hexact.
  { apply mem_In in Hexact. tauto. }
  apply mem_false_not_In in Hstar. apply mem_false_not_In in Hexact.
  destruct (Str.has_char colon required_scope) eqn:Hcolon.
  - destruct (split_first_decompose _ _ Hcolon) as [rest [Heq Hno]].
    destruct (Str.mem _ _) eqn:Hpre.
    + apply mem_In in Hpre. split; [|reflexivity]. intros _.
      right; right. eauto.
    + apply mem_false_not_In in Hpre.
      split; [discriminate|].
      intros [H|[H|[p [r [Hr [Hp Hin]]]]]]; try contradiction.
      exfalso. apply Hpre.
      rewrite Hr. rewrite (split_first_app colon p r Hp). exact Hin.
  - split; [discriminate|].
    intros [H|[H|[p [r [Hr [Hp Hin]]]]]]; try contradiction.
    rewrite Hr, has_char_app in Hcolon. discriminate.
Qed.

(** C1. [_has_scope] returns true exactly when ["*"] is granted, or the
    required scope itself is granted, or the required scope holds a [:] and
    the text before its first [:], followed by [":*"], is granted.  A token
    granted ["data:*"] has every scope of the form ["data:anything"]. *)
Theorem has_scope_spec (self : MCPHandler) (required_scope : string) :
  let granted := scopes (_token_info self) in
  (_has_scope self required_scope = true <->
     In "*" granted
     \/ In required_scope granted
     \/ exists prefix rest,
          required_scope = prefix ++ String colon rest
          /\ Str.has_char colon prefix = false
          /\ In (prefix ++ ":*") granted)
  /\ (forall anything,
        In "data:*" granted -> _has_scope self ("data:" ++ anything) = true).
Proof.
  cbv zeta. split; [apply has_scope_iff|].
  intros anything Hin. apply has_scope_iff.
  right; right. exists "data", anything. repeat split. exact Hin.
Qed.

Lemma has_scope_spec_witness :
  In "data:*" (scopes (_token_info (Demo.handler Demo.data_all)))
  /\ _has_scope (Demo.handler Demo.data_all) ("data:" ++ "anything") = true.
Proof.
  split.
  - simpl. auto.
  - apply (has_scope_spec (Demo.handler Demo.data_all) "data:anything").
    simpl. auto.
Defined.

(** ** The four ways through [tools/call] *)

Section ToolsCall.

Variables (rt : Runtime) (self : MCPHandler) (params : dict pyval).

Let tool_name := dict_get_default "name" PNone params.
Let tool_args := dict_get_default "arguments" (PDict []) params.

Ltac run_tools_call :=
  unfold _handle_tools_call, has_scope_call, _create_tool_context, try_except,
    bind, call, tell, raise, ret;
  fold tool_name; fold tool_args.

Lemma tools_call_missing_name :
  truthy tool_name = false ->
  _handle_tools_call rt self params
  = ([], inl (MCPError JSONRPC_INVALID_PARAMS "Missing tool name" PNone)).
Proof.
  intros Hname. run_tools_call. rewrite Hname. reflexivity.
Qed.

Lemma tools_call_unknown_tool :
  truthy tool_name = true ->
  get (_tool_registry self) tool_name = inr None ->
  _handle_tools_call rt self params
  = ([EvRegistryGet tool_name],
     inl (MCPError JSONRPC_METHOD_NOT_FOUND
            ("Tool not found: " ++ format_value rt tool_name) PNone)).
Proof.
  intros Hname Hget. run_tools_call. rewrite Hname, Hget. reflexivity.
Qed.

Lemma tools_call_lookup_raises (e : exn) :
  truthy tool_name = true ->
  get (_tool_registry self) tool_name = inl e ->
  _handle_tools_call rt self params = ([EvRegistryGet tool_name], inl e).
Proof.
  intros Hname Hget. run_tools_call. rewrite Hname, Hget. reflexivity.
Qed.

Lemma tools_call_missing_scope (tool : Tool) :
  truthy tool_name = true ->
  get (_tool_registry self) tool_name = inr (Some tool) ->
  _has_scope self (getattr_required_scope tool) = false ->
  _handle_tools_call rt self params
  = ([EvRegistryGet tool_name; EvHasScope (getattr_required_scope tool)],
     inl (MCPError MCP_AUTH_MISSING_SCOPE
            ("Missing required scope: " ++ getattr_required_scope tool)
            (PDict [("required_scope", PStr (getattr_required_scope tool));
                    ("token_scopes",
                     PList (map PStr (scopes (_token_info self))))]))).
Proof.
  intros Hname Hget Hscope. run_tools_call. rewrite Hname, Hget, Hscope. reflexivity.
Qed.

(** Past the three checks: the context is built, the tool runs, and
    whatever it does the handler returns a content block. *)
Lemma tools_call_executes (tool : Tool) :
  truthy tool_name = true ->
  get (_tool_registry self) tool_name = inr (Some tool) ->
  _has_scope self (getattr_required_scope tool) = true ->
  exists ctx log text isError,
    outcome (_create_tool_context self) = inr ctx
    /\ _handle_tools_call rt self params
       = ([EvRegistryGet tool_name; EvHasScope (getattr_required_scope tool);
           EvCreateContext; EvExecute tool_args] ++ log,
          inr (text_content text isError))%list
    /\ (forall e, execute tool ctx tool_args = inl e ->
          text = "Tool execution failed: " ++ exn_str e /\ isError = true)
    /\ (forall result, execute tool ctx tool_args = inr result ->
          success result = false ->
          text = str_or (error result) "Unknown error" /\ isError = true /\ log = [])
    /\ (forall result dumped, execute tool ctx tool_args = inr result ->
          success result = true -> json_dumps rt (data result) = inr dumped ->
          text = dumped /\ isError = false /\ log = []).
Proof.
  intros Hname Hget Hscope. run_tools_call. rewrite Hname, Hget, Hscope. simpl.
  match goal with |- context [execute tool ?c tool_args] => set (ctx := c) end.
  exists ctx.
  destruct (execute tool ctx tool_args) as [e|result] eqn:Hexec.
  - eexists _, _, _. split; [reflexivity|]. split; [reflexivity|].
    split; [|split]; [| discriminate | discriminate].
    intros e' He'. inversion He'; subst. auto.
  - destruct (success result) eqn:Hsucc.
    + destruct (json_dumps rt (data result)) as [e|dumped] eqn:Hdump; simpl.
      * eexists _, _, _. split; [reflexivity|]. split; [reflexivity|].
        split; [discriminate|]. split.
        -- intros r Hr Hs. inversion Hr; subst. congruence.
        -- intros r d Hr Hs Hd. inversion Hr; subst. congruence.
      * eexists _, _, _. split; [reflexivity|]. split; [reflexivity|].
        split; [discriminate|]. split.
        -- intros r Hr Hs. inversion Hr; subst. congruence.
        -- intros r d Hr Hs Hd. inversion Hr; subst.
           rewrite Hdump in Hd. inversion Hd; subst. auto.
    + simpl. eexists _, _, _. split; [reflexivity|]. split; [reflexivity|].
      split; [discriminate|]. split.
      * intros r Hr Hs. inversion Hr; subst. auto.
      * intros r d Hr Hs Hd. inversion Hr; subst. congruence.
Qed.

End ToolsCall.

(** ** The dispatcher *)


(** What [handle] does with the outcome of the handler it resolved. *)
Lemma handle_resolved (rt : Runtime) (self : MCPHandler) (req : JSONRPCRequest)
    (handler : dict pyval -> M pyval) :
  dict_get (req_method req) (handlers rt self) = Some handler ->
  handle rt self req =
    match handler (params_or_empty (req_params req)) with
    | (t, inr result) => (t, inr (make_success_response result (req_id req)))
    | (t, inl (MCPError code message data)) =>
        (t, inr (make_error_response code message data (req_id req)))
    | (t, inl (OtherException text)) =>
        ((t ++ [EvLogError ("Error handling MCP method " ++ req_method req
                            ++ ": " ++ text)])%list,
         inr (make_error_response JSONRPC_INTERNAL_ERROR
                ("Internal error: " ++ text) PNone (req_id req)))
    end.
Proof.
  intros Hres. unfold handle. rewrite Hres.
  unfold try_except, bind, ret, tell, call.
  destruct (handler (params_or_empty (req_params req))) as [t [[c m d|text]|result]];
    simpl; rewrite ?app_nil_r; reflexivity.
Qed.

Lemma handle_unresolved (rt : Runtime) (self : MCPHandler) (req : JSONRPCRequest) :
  dict_get (req_method req) (handlers rt self) = None ->
  handle rt self req =
    ([], inr (make_error_response JSONRPC_METHOD_NOT_FOUND
                ("Method not found: " ++ req_method req) PNone (req_id req))).
Proof.
  intros Hres. unfold handle. rewrite Hres. reflexivity.
Qed.

(** [handle] always comes back with a response, and the response carries
    the identifier of the request. *)
Lemma handle_returns (rt : Runtime) (self : MCPHandler) (req : JSONRPCRequest) :
  exists resp, outcome (handle rt self req) = inr resp
               /\ resp_id resp = req_id req.
Proof.
  destruct (dict_get (req_method req) (handlers rt self)) as [handler|] eqn:Hres.
  - rewrite (handle_resolved _ _ _ _ Hres).
    destruct (handler _) as [t [[c m d|text]|result]]; simpl; eauto.
  - rewrite (handle_unresolved _ _ _ Hres). simpl. eauto.
Qed.

(** The value of [tools/call] is a content block when there is one. *)
Lemma tools_call_value (rt : Runtime) (self : MCPHandler) (params : dict pyval)
    (v : pyval) :
  outcome (_handle_tools_call rt self params) = inr v ->
  exists text isError, v = text_content text isError.
Proof.
  unfold _handle_tools_call, has_scope_call, _create_tool_context, try_except,
    bind, call, tell, raise, ret, outcome.
  destruct (truthy _); simpl; [|discriminate].
  destruct (get _ _) as [e|[tool|]]; simpl; try discriminate.
  destruct (_has_scope _ _); simpl; [|discriminate].
  destruct (execute _ _ _) as [e|result]; simpl.
  - intros H; inversion H; eauto.
  - destruct (success result); simpl.
    + destruct (json_dumps _ _); simpl; intros H; inversion H; eauto.
    + intros H; inversion H; eauto.
Qed.

Lemma tools_list_value (self : MCPHandler) (params : dict pyval) (v : pyval) :
  outcome (_handle_tools_list self params) = inr v ->
  exists tools, v = PDict [("tools", PList tools)].
Proof.
  unfold _handle_tools_list, bind, call, ret, outcome.
  destruct (get_mcp_definitions _) as [e|defs]; simpl; [discriminate|].
  destruct (filter_tools self defs []) as [t [e|tools]]; simpl; [discriminate|].
  intros H; inversion H; eauto.
Qed.

(** No handler of the table returns [None]. *)
Lemma handler_value_set (rt : Runtime) (self : MCPHandler) (method : string)
    (handler : dict pyval -> M pyval) (params : dict pyval) (v : pyval) :
  dict_get method (handlers rt self) = Some handler ->
  outcome (handler params) = inr v ->
  is_set v = true.
Proof.
  unfold handlers. cbn [dict_get].
  repeat match goal with
         | |- context [String.eqb ?a method] =>
             destruct (String.eqb_spec a method) as [_|_]
         end;
    intros Hh; inversion Hh; subst; clear Hh; intros Hv.
  - inversion Hv; reflexivity.
  - inversion Hv; reflexivity.
  - inversion Hv; reflexivity.
  - destruct (tools_list_value _ _ _ Hv) as [tools ->]. reflexivity.
  - destruct (tools_call_value _ _ _ _ Hv) as [text [isError ->]]. reflexivity.
Qed.

Lemma tools_call_resolved (rt : Runtime) (self : MCPHandler) (req : JSONRPCRequest) :
  req_method req = "tools/call" ->
  dict_get (req_method req) (handlers rt self) = Some (_handle_tools_call rt self).
Proof.
  intros ->. reflexivity.
Qed.

(** ** Tool failures *)



(** ** Validation order of [tools/call] *)

(** C5. A [tools/call] is checked in sequence.  Without a name the answer is
    code -32602 and nothing has been looked up or checked; a name the
    registry does not know gives -32601 after the lookup alone; a scope the
    token lacks gives -32002 with the required scope and the token's scopes
    as data, after the lookup and the scope check; and the context is built
    and the tool run exactly when all three checks passed. *)
Theorem tools_call_validation_order (rt : Runtime) (self : MCPHandler)
    (req : JSONRPCRequest) :
  let params := params_or_empty (req_params req) in
  let tool_name := dict_get_default "name" PNone params in
  let tool_args := dict_get_default "arguments" (PDict []) params in
  req_method req = "tools/call" ->
  (truthy tool_name = false ->
     handle rt self req
     = ([], inr (make_error_response (-32602) "Missing tool name" PNone (req_id req))))
  /\ (truthy tool_name = true ->
      get (_tool_registry self) tool_name = inr None ->
      handle rt self req
      = ([EvRegistryGet tool_name],
         inr (make_error_response (-32601)
                ("Tool not found: " ++ format_value rt tool_name) PNone (req_id req))))
  /\ (forall tool,
        truthy tool_name = true ->
        get (_tool_registry self) tool_name = inr (Some tool) ->
        _has_scope self (getattr_required_scope tool) = false ->
        handle rt self req
        = ([EvRegistryGet tool_name; EvHasScope (getattr_required_scope tool)],
           inr (make_error_response (-32002)
                  ("Missing required scope: " ++ getattr_required_scope tool)
                  (PDict [("required_scope", PStr (getattr_required_scope tool));
                          ("token_scopes",
                           PList (map PStr (scopes (_token_info self))))])
                  (req_id req))))
  /\ (forall tool,
        truthy tool_name = true ->
        get (_tool_registry self) tool_name = inr (Some tool) ->
        _has_scope self (getattr_required_scope tool) = true ->
        exists log text isError,
          handle rt self req
          = ([EvRegistryGet tool_name; EvHasScope (getattr_required_scope tool);
              EvCreateContext; EvExecute tool_args] ++ log,
             inr (make_success_response (text_content text isError) (req_id req)))%list)
  /\ (In EvCreateContext (trace (handle rt self req))
      \/ In (EvExecute tool_args) (trace (handle rt self req)) ->
      truthy tool_name = true
      /\ exists tool, get (_tool_registry self) tool_name = inr (Some tool)
                      /\ _has_scope self (getattr_required_scope tool) = true).
Proof.
  intros params tool_name tool_args Hm.
  pose proof (handle_resolved rt self req _ (tools_call_resolved rt self req Hm)) as Hh.
  fold params in Hh.
  split; [|split; [|split; [|split]]].
  - intros Hname. rewrite Hh.
    rewrite (tools_call_missing_name rt self params Hname). reflexivity.
  - intros Hname Hget. rewrite Hh.
    rewrite (tools_call_unknown_tool rt self params Hname Hget). reflexivity.
  - intros tool Hname Hget Hscope. rewrite Hh.
    rewrite (tools_call_missing_scope rt self params tool Hname Hget Hscope).
    reflexivity.
  - intros tool Hname Hget Hscope.
    destruct (tools_call_executes rt self params tool Hname Hget Hscope)
      as (ctx & log & text & isError & _ & Hcall & _).
    exists log, text, isError. rewrite Hh, Hcall. reflexivity.
  - intros Hin. rewrite Hh in Hin.
    destruct (truthy tool_name) eqn:Hname.
    2:{ rewrite (tools_call_missing_name rt self params Hname) in Hin.
        simpl in Hin. tauto. }
    split; [reflexivity|].
    destruct (get (_tool_registry self) tool_name) as [e|[tool|]] eqn:Hget.
    + rewrite (tools_call_lookup_raises rt self params e Hname Hget) in Hin.
      exfalso. destruct e; simpl in Hin;
        repeat match goal with
               | H : _ \/ _ |- _ => destruct H
               | H : _ = _ |- _ => discriminate H
               | H : False |- _ => contradiction
               end.
    + exists tool. split; [reflexivity|].
      destruct (_has_scope self (getattr_required_scope tool)) eqn:Hscope;
        [reflexivity|].
      rewrite (tools_call_missing_scope rt self params tool Hname Hget Hscope) in Hin.
      exfalso. simpl in Hin.
      repeat match goal with
             | H : _ \/ _ |- _ => destruct H
             | H : _ = _ |- _ => discriminate H
             | H : False |- _ => contradiction
             end.
    + rewrite (tools_call_unknown_tool rt self params Hname Hget) in Hin.
      exfalso. simpl in Hin.
      repeat match goal with
             | H : _ \/ _ |- _ => destruct H
             | H : _ = _ |- _ => discriminate H
             | H : False |- _ => contradiction
             end.
Qed.

Lemma tools_call_validation_order_witness :
  handle Demo.rt (Demo.handler Demo.reader) (Demo.call_tool "update")
  = ([EvRegistryGet (PStr "update"); EvHasScope "data:write"],
     inr (make_error_response (-32002) "Missing required scope: data:write"
            (PDict [("required_scope", PStr "data:write");
                    ("token_scopes", PList [PStr "data:read"])])
            (Some (IdInt 42)))).
Proof.
  destruct (tools_call_validation_order Demo.rt (Demo.handler Demo.reader)
              (Demo.call_tool "update") eq_refl) as (_ & _ & Hscope & _).
  apply (Hscope (Demo.tool_ok (Some "data:write"))); reflexivity.
Defined.

(** C10. A [tools/call] whose [name] is the empty string is answered as one
    without a name: code -32602, before any lookup or scope check. *)
Theorem empty_name_is_missing_name (rt : Runtime) (self : MCPHandler)
    (req : JSONRPCRequest) :
  req_method req = "tools/call" ->
  dict_get "name" (params_or_empty (req_params req)) = Some (PStr "") ->
  handle rt self req
  = ([], inr (make_error_response (-32602) "Missing tool name" PNone (req_id req)))
  /\ (forall absent : JSONRPCRequest,
        req_method absent = "tools/call" ->
        dict_get "name" (params_or_empty (req_params absent)) = None ->
        req_id absent = req_id req ->
        handle rt self absent = handle rt self req).
Proof.
  intros Hm Hname.
  assert (Hempty : forall r : JSONRPCRequest,
            req_method r = "tools/call" ->
            truthy (dict_get_default "name" PNone (params_or_empty (req_params r)))
            = false ->
            handle rt self r
            = ([], inr (make_error_response (-32602) "Missing tool name" PNone
                          (req_id r)))).
  { intros r Hr Ht.
    rewrite (handle_resolved rt self r _ (tools_call_resolved rt self r Hr)).
    rewrite (tools_call_missing_name rt self _ Ht). reflexivity. }
  assert (Hreq : handle rt self req
            = ([], inr (make_error_response (-32602) "Missing tool name" PNone
                          (req_id req)))).
  { apply Hempty; [exact Hm|]. unfold dict_get_default. rewrite Hname. reflexivity. }
  split; [exact Hreq|].
  intros absent Ha Hnone Hid. rewrite Hreq, <- Hid.
  apply Hempty; [exact Ha|]. unfold dict_get_default. rewrite Hnone. reflexivity.
Qed.

Lemma empty_name_is_missing_name_witness :
  handle Demo.rt (Demo.handler Demo.admin) (Demo.call_tool "")
  = ([], inr (make_error_response (-32602) "Missing tool name" PNone (Some (IdInt 42)))).
Proof.
  exact (proj1 (empty_name_is_missing_name Demo.rt (Demo.handler Demo.admin)
                  (Demo.call_tool "") eq_refl eq_refl)).
Defined.

(** ** The boundary of the dispatcher *)



(** ** The pipeline, path by path *)

Section Pipeline.

Variables (rt : Runtime) (request : Request) (db : Session) (settings : obj).

Ltac run_pipeline :=
  unfold mcp_handler, try_or_return, MCPHandler_init, try_except, bind, call,
    tell, raise, ret.

Lemma pipeline_missing_header (x_api_key : option string) :
  header_present x_api_key = None ->
  mcp_handler rt request db settings x_api_key
  = ([], inr (model_dump (JSONRPCResponse_error MCP_AUTH_FAILED
                            "Missing X-API-Key header"))).
Proof.
  intros Hkey. run_pipeline. rewrite Hkey. reflexivity.
Qed.

Lemma pipeline_rejected_token (x_api_key : option string) (key : string) :
  header_present x_api_key = Some key ->
  validate_token db key = inr None ->
  mcp_handler rt request db settings x_api_key
  = ([EvValidateToken key],
     inr (model_dump (JSONRPCResponse_error MCP_AUTH_FAILED
                        "Invalid or expired API key"))).
Proof.
  intros Hkey Hval. run_pipeline. rewrite Hkey, Hval. reflexivity.
Qed.

Lemma pipeline_invalid_request (x_api_key : option string) (key : string)
    (token_info : MCPTokenInfo) (body : pyval) (e : exn) :
  header_present x_api_key = Some key ->
  validate_token db key = inr (Some token_info) ->
  json request = inr body ->
  JSONRPCRequest_init rt body = inl e ->
  mcp_handler rt request db settings x_api_key
  = ([EvValidateToken key; EvRequestJson],
     inr (model_dump (JSONRPCResponse_error JSONRPC_INVALID_REQUEST
                        ("Invalid request: " ++ exn_str e)))).
Proof.
  intros Hkey Hval Hjson Hinit. run_pipeline.
  rewrite Hkey, Hval, Hjson. simpl. rewrite Hinit. reflexivity.
Qed.

(** A request that passes the four gates is answered with the dump of what
    [handle] returned, when the commit, or the rollback after it, goes
    through. *)
Lemma pipeline_dispatch (x_api_key : option string) (key : string)
    (token_info : MCPTokenInfo) (body : pyval) (rpc_request : JSONRPCRequest)
    (registry : ToolRegistry) :
  header_present x_api_key = Some key ->
  validate_token db key = inr (Some token_info) ->
  json request = inr body ->
  JSONRPCRequest_init rt body = inr rpc_request ->
  create_default_registry rt = inr registry ->
  commit db = inr tt \/ rollback db = inr tt ->
  exists resp,
    outcome (handle rt {| _db := db; _settings := settings;
                          _token_info := token_info; _request := request;
                          _tool_registry := registry |} rpc_request)
    = inr resp
    /\ outcome (mcp_handler rt request db settings x_api_key)
       = inr (model_dump resp).
Proof.
  intros Hkey Hval Hjson Hinit Hreg Hdb.
  match goal with
  | |- context [handle rt ?h rpc_request] =>
      destruct (handle_returns rt h rpc_request) as [resp [Hresp _]];
      exists resp; split; [exact Hresp|];
      run_pipeline; rewrite Hkey, Hval, Hjson; simpl; rewrite Hinit; simpl;
      rewrite Hreg; simpl;
      destruct (handle rt h rpc_request) as [t r]
  end.
  simpl in Hresp. subst r. simpl.
  destruct (commit db) as [e|[]] eqn:Hc; simpl.
  - destruct Hdb as [Hdb|Hdb]; [discriminate|]. rewrite Hdb. reflexivity.
  - reflexivity.
Qed.

(** Whatever the pipeline returns is the dump of a response: one of its
    early errors, or what [handle] returned. *)
Lemma pipeline_emits (x_api_key : option string) (v : pyval) :
  outcome (mcp_handler rt request db settings x_api_key) = inr v ->
  exists resp,
    v = model_dump resp
    /\ ((exists code message, resp = JSONRPCResponse_error code message)
        \/ (exists self rpc_request,
              outcome (handle rt self rpc_request) = inr resp)).
Proof.
  run_pipeline.
  destruct (header_present x_api_key) as [key|]; simpl.
  2:{ intros H; inversion H. eexists; split; [reflexivity|]. left; eauto. }
  destruct (validate_token db key) as [e|[token_info|]]; simpl; try discriminate.
  2:{ intros H; inversion H. eexists; split; [reflexivity|]. left; eauto. }
  destruct (json request) as [e|body]; simpl.
  { intros H; inversion H. eexists; split; [reflexivity|]. left; eauto. }
  destruct (JSONRPCRequest_init rt body) as [e|rpc_request]; simpl.
  { intros H; inversion H. eexists; split; [reflexivity|]. left; eauto. }
  destruct (create_default_registry rt) as [e|registry]; simpl; [discriminate|].
  match goal with
  | |- context [handle rt ?h rpc_request] =>
      destruct (handle rt h rpc_request) as [t [e|resp]] eqn:Hh
  end; simpl; [discriminate|].
  assert (Hresp : forall u : exn + pyval, u = inr (model_dump resp) -> u = inr v ->
            exists resp0,
              v = model_dump resp0
              /\ ((exists code message, resp0 = JSONRPCResponse_error code message)
                  \/ (exists self rpc_request0,
                        outcome (handle rt self rpc_request0) = inr resp0))).
  { intros u -> H. inversion H. exists resp. split; [reflexivity|].
    right. eexists _, _. rewrite Hh. reflexivity. }
  destruct (commit db) as [e|[]]; simpl.
  - destruct (rollback db) as [e'|[]]; simpl; [discriminate|].
    apply Hresp. reflexivity.
  - apply Hresp. reflexivity.
Qed.

End Pipeline.

(** ** Rejected credentials *)

(** Against C4 as stated: the two rejections of a credential are told apart
    by their message.  A request without the header and a request with a key
    the store rejects get different responses. *)
Lemma auth_rejections_differ :
  header_present None = None
  /\ validate_token Demo.db "stale-key" = inr None
  /\ outcome (mcp_handler Demo.rt (Demo.request Demo.body_ping) Demo.db
                Demo.settings None)
     = inr (PDict [("jsonrpc", PStr "2.0"); ("result", PNone);
                   ("error", PDict [("code", PInt (-32001));
                                    ("message", PStr "Missing X-API-Key header");
                                    ("data", PNone)]);
                   ("id", PNone)])
  /\ outcome (mcp_handler Demo.rt (Demo.request Demo.body_ping) Demo.db
                Demo.settings (Some "stale-key"))
     = inr (PDict [("jsonrpc", PStr "2.0"); ("result", PNone);
                   ("error", PDict [("code", PInt (-32001));
                                    ("message", PStr "Invalid or expired API key");
                                    ("data", PNone)]);
                   ("id", PNone)])
  /\ outcome (mcp_handler Demo.rt (Demo.request Demo.body_ping) Demo.db
                Demo.settings None)
     <> outcome (mcp_handler Demo.rt (Demo.request Demo.body_ping) Demo.db
                   Demo.settings (Some "stale-key")).
Proof.
  repeat split; try reflexivity.
  vm_compute. intros H. discriminate H.
Qed.

(** C4, amended.  A request without the key header (or with an empty one)
    is answered with code -32001, no id and the message
    ["Missing X-API-Key header"], before the store is asked; a request whose
    key the store rejects, for whatever reason, is answered with code
    -32001, no id and the message ["Invalid or expired API key"].  The body
    is read in neither case. *)
Theorem auth_failure_response (rt : Runtime) (request : Request) (db : Session)
    (settings : obj) (x_api_key : option string) :
  (header_present x_api_key = None ->
     mcp_handler rt request db settings x_api_key
     = ([], inr (PDict [("jsonrpc", PStr "2.0"); ("result", PNone);
                        ("error", PDict [("code", PInt (-32001));
                                         ("message", PStr "Missing X-API-Key header");
                                         ("data", PNone)]);
                        ("id", PNone)])))
  /\ (forall key,
        header_present x_api_key = Some key ->
        validate_token db key = inr None ->
        mcp_handler rt request db settings x_api_key
        = ([EvValidateToken key],
           inr (PDict [("jsonrpc", PStr "2.0"); ("result", PNone);
                       ("error", PDict [("code", PInt (-32001));
                                        ("message", PStr "Invalid or expired API key");
                                        ("data", PNone)]);
                       ("id", PNone)]))).
Proof.
  split.
  - intros Hkey. rewrite (pipeline_missing_header rt request db settings _ Hkey).
    reflexivity.
  - intros key Hkey Hval.
    rewrite (pipeline_rejected_token rt request db settings _ key Hkey Hval).
    reflexivity.
Qed.

Lemma auth_failure_response_witness :
  mcp_handler Demo.rt (Demo.request Demo.body_ping) Demo.db Demo.settings
    (Some "stale-key")
  = ([EvValidateToken "stale-key"],
     inr (PDict [("jsonrpc", PStr "2.0"); ("result", PNone);
                 ("error", PDict [("code", PInt (-32001));
                                  ("message", PStr "Invalid or expired API key");
                                  ("data", PNone)]);
                 ("id", PNone)])).
Proof.
  exact (proj2 (auth_failure_response Demo.rt (Demo.request Demo.body_ping) Demo.db
                  Demo.settings (Some "stale-key")) "stale-key" eq_refl eq_refl).
Defined.

(** ** Bodies that are no request *)

(** Against C9 as stated: an authenticated request whose body has the id 7
    and no method is answered with code -32600 and no id. *)
Lemma invalid_request_drops_id :
  validate_token Demo.db "reader-key" = inr (Some Demo.reader)
  /\ json (Demo.request Demo.body_without_method)
     = inr (PDict [("jsonrpc", PStr "2.0"); ("id", PInt 7)])
  /\ field_id [("jsonrpc", PStr "2.0"); ("id", PInt 7)] = Some (Some (IdInt 7))
  /\ mcp_handler Demo.rt (Demo.request Demo.body_without_method) Demo.db
       Demo.settings (Some "reader-key")
     = ([EvValidateToken "reader-key"; EvRequestJson],
        inr (PDict [("jsonrpc", PStr "2.0"); ("result", PNone);
                    ("error", PDict [("code", PInt (-32600));
                                     ("message",
                                      PStr "Invalid request: validation error");
                                     ("data", PNone)]);
                    ("id", PNone)])).
Proof.
  repeat split; reflexivity.
Qed.

(** C9, amended.  An authenticated request whose body parses and does not
    validate as a request is answered with code -32600 and no id, whether
    or not the body holds one. *)
Theorem invalid_request_response (rt : Runtime) (request : Request) (db : Session)
    (settings : obj) (x_api_key : option string) (key : string)
    (token_info : MCPTokenInfo) (body : pyval) (e : exn) :
  header_present x_api_key = Some key ->
  validate_token db key = inr (Some token_info) ->
  json request = inr body ->
  JSONRPCRequest_init rt body = inl e ->
  mcp_handler rt request db settings x_api_key
  = ([EvValidateToken key; EvRequestJson],
     inr (PDict [("jsonrpc", PStr "2.0"); ("result", PNone);
                 ("error", PDict [("code", PInt (-32600));
                                  ("message", PStr ("Invalid request: " ++ exn_str e));
                                  ("data", PNone)]);
                 ("id", PNone)])).
Proof.
  intros Hkey Hval Hjson Hinit.
  rewrite (pipeline_invalid_request rt request db settings _ key token_info body e
             Hkey Hval Hjson Hinit).
  reflexivity.
Qed.

Lemma invalid_request_response_witness :
  mcp_handler Demo.rt (Demo.request (PList [])) Demo.db Demo.settings
    (Some "admin-key")
  = ([EvValidateToken "admin-key"; EvRequestJson],
     inr (PDict [("jsonrpc", PStr "2.0"); ("result", PNone);
                 ("error", PDict [("code", PInt (-32600));
                                  ("message",
                                   PStr "Invalid request: validation error");
                                  ("data", PNone)]);
                 ("id", PNone)])).
Proof.
  exact (invalid_request_response Demo.rt (Demo.request (PList [])) Demo.db
           Demo.settings (Some "admin-key") "admin-key" Demo.admin (PList [])
           (OtherException "validation error") eq_refl eq_refl eq_refl eq_refl).
Defined.

(** ** Identifiers *)

(** C8. The response of [handle] carries the identifier of the request, on
    success and on error; and a request that passed authentication, parsing
    and validation is answered by the pipeline with that identifier. *)
Theorem response_echoes_request_id (rt : Runtime) (self : MCPHandler)
    (req : JSONRPCRequest) (i : rpc_id) :
  req_id req = Some i ->
  (exists resp, outcome (handle rt self req) = inr resp /\ resp_id resp = Some i)
  /\ (forall request x_api_key key body,
        header_present x_api_key = Some key ->
        validate_token (_db self) key = inr (Some (_token_info self)) ->
        json request = inr body ->
        JSONRPCRequest_init rt body = inr req ->
        create_default_registry rt = inr (_tool_registry self) ->
        commit (_db self) = inr tt \/ rollback (_db self) = inr tt ->
        exists v,
          outcome (mcp_handler rt request (_db self) (_settings self) x_api_key)
          = inr v
          /\ dict_get "id" match v with PDict d => d | _ => [] end
             = Some (dump_id (Some i))).
Proof.
  intros Hid. split.
  - destruct (handle_returns rt self req) as [resp [Hresp Hecho]].
    exists resp. split; [exact Hresp | congruence].
  - intros request x_api_key key body Hkey Hval Hjson Hinit Hreg Hdb.
    destruct (pipeline_dispatch rt request (_db self) (_settings self) x_api_key key
                (_token_info self) body req (_tool_registry self)
                Hkey Hval Hjson Hinit Hreg Hdb) as [resp [Hresp Hout]].
    match type of Hresp with
    | outcome (handle rt ?h req) = _ =>
        destruct (handle_returns rt h req) as [resp' [Hresp' Hecho]]
    end.
    rewrite Hresp in Hresp'. inversion Hresp'; subst resp'.
    exists (model_dump resp). split; [exact Hout|].
    simpl. rewrite Hecho, Hid. reflexivity.
Qed.

Lemma response_echoes_request_id_witness :
  exists resp,
    outcome (handle Demo.rt (Demo.handler Demo.reader) (Demo.call_tool "search"))
    = inr resp
    /\ resp_id resp = Some (IdInt 42).
Proof.
  exact (proj1 (response_echoes_request_id Demo.rt (Demo.handler Demo.reader)
                  (Demo.call_tool "search") (IdInt 42) eq_refl)).
Defined.

(** ** One of [result] and [error] *)

(** C7. The two constructors of the codec never set both fields: an error
    response has [error] set and [result] unset, a success response has
    [error] unset and the payload as [result].  Every response [handle]
    returns, and every response the pipeline returns, has exactly one of the
    two set. *)
Theorem envelope_exactly_one :
  (forall code message data request_id,
     error_set (make_error_response code message data request_id) = true
     /\ result_set (make_error_response code message data request_id) = false)
  /\ (forall code message,
        error_set (JSONRPCResponse_error code message) = true
        /\ result_set (JSONRPCResponse_error code message) = false)
  /\ (forall result request_id,
        error_set (make_success_response result request_id) = false
        /\ result_set (make_success_response result request_id) = is_set result)
  /\ (forall rt self req,
        exists resp,
          outcome (handle rt self req) = inr resp
          /\ xorb (result_set resp) (error_set resp) = true)
  /\ (forall rt request db settings x_api_key v,
        outcome (mcp_handler rt request db settings x_api_key) = inr v ->
        exists resp,
          v = model_dump resp
          /\ xorb (result_set resp) (error_set resp) = true).
Proof.
  assert (Hhandle : forall rt self req resp,
            outcome (handle rt self req) = inr resp ->
            xorb (result_set resp) (error_set resp) = true).
  { intros rt self req resp.
    destruct (dict_get (req_method req) (handlers rt self)) as [handler|] eqn:Hres.
    - rewrite (handle_resolved rt self req handler Hres).
      destruct (handler (params_or_empty (req_params req)))
        as [t [[c m d|text]|result]] eqn:Hrun;
        simpl; intros H; inversion H; try reflexivity.
      unfold result_set, error_set. simpl.
      rewrite (handler_value_set rt self (req_method req) handler
                 (params_or_empty (req_params req)) result Hres);
        [reflexivity | rewrite Hrun; reflexivity].
    - rewrite (handle_unresolved rt self req Hres).
      simpl; intros H; inversion H; reflexivity. }
  repeat split.
  - intros rt self req.
    destruct (handle_returns rt self req) as [resp [Hresp _]].
    exists resp. split; [exact Hresp | exact (Hhandle _ _ _ _ Hresp)].
  - intros rt request db settings x_api_key v Hv.
    destruct (pipeline_emits rt request db settings x_api_key v Hv)
      as [resp [-> [[code [message ->]]|[self [rpc_request Hresp]]]]].
    + eexists; split; reflexivity.
    + exists resp. split; [reflexivity | exact (Hhandle _ _ _ _ Hresp)].
Qed.

Lemma envelope_exactly_one_witness :
  exists resp,
    PDict [("jsonrpc", PStr "2.0"); ("result", PDict []); ("error", PNone);
           ("id", PInt 3)] = model_dump resp
    /\ xorb (result_set resp) (error_set resp) = true.
Proof.
  destruct envelope_exactly_one as (_ & _ & _ & _ & Hpipeline).
  apply (Hpipeline Demo.rt
           (Demo.request (PDict [("method", PStr "notifications/initialized");
                                 ("id", PInt 3)]))
           Demo.db Demo.settings (Some "reader-key")).
  reflexivity.
Defined.

(** ** Tools that declare no scope *)

(** A listing that runs to its end keeps the definitions gathered so far and
    adds those whose tool the registry knows and the token may use. *)
Lemma filter_tools_spec (self : MCPHandler) (all_tools : list (dict pyval)) :
  forall filtered out,
    outcome (filter_tools self all_tools filtered) = inr out ->
    forall v,
      In v out <->
      In v filtered
      \/ exists tool_def name tool,
           v = PDict tool_def /\ In tool_def all_tools
           /\ dict_get "name" tool_def = Some name
           /\ get (_tool_registry self) name = inr (Some tool)
           /\ _has_scope self (getattr_required_scope tool) = true.
Proof.
  induction all_tools as [|tool_def rest IH]; intros filtered out.
  - simpl. intros H; inversion H; subst. intros v. split; [auto|].
    intros [H0|(d & n & t & _ & [] & _)]. exact H0.
  - cbn [filter_tools].
    unfold tool_def_name, has_scope_call, bind, call, raise, ret, outcome.
    destruct (dict_get "name" tool_def) as [name|] eqn:Hname; simpl; [|discriminate].
    destruct (get (_tool_registry self) name) as [e|[tool|]] eqn:Hget; simpl;
      [discriminate| |].
    + destruct (_has_scope self (getattr_required_scope tool)) eqn:Hscope.
      * destruct (filter_tools self rest (filtered ++ [PDict tool_def]))
          as [t r] eqn:Hrest.
        simpl. intros ->. intros v.
        rewrite (IH (filtered ++ [PDict tool_def])%list out)
          by (unfold outcome; rewrite Hrest; reflexivity).
        rewrite in_app_iff. simpl. split.
        -- intros [[H|[H|[]]]|(d & n & t0 & Hv & Hin & Hrestn)].
           ++ auto.
           ++ right. exists tool_def, name, tool. subst v. auto 6.
           ++ right. exists d, n, t0. auto 6.
        -- intros [H|(d & n & t0 & Hv & [Hd|Hin] & Hn & Hg & Hs)].
           ++ auto.
           ++ subst d v. auto.
           ++ right. exists d, n, t0. auto 6.
      * destruct (filter_tools self rest filtered) as [t r] eqn:Hrest.
        simpl. intros ->. intros v.
        rewrite (IH filtered out) by (unfold outcome; rewrite Hrest; reflexivity).
        split.
        -- intros [H|(d & n & t0 & Hv & Hin & Hrestn)]; [auto|].
           right. exists d, n, t0. simpl. auto 6.
        -- intros [H|(d & n & t0 & Hv & [Hd|Hin] & Hn & Hg & Hs)]; [auto| |].
           ++ subst d. congruence.
           ++ right. exists d, n, t0. auto 6.
    + destruct (filter_tools self rest filtered) as [t r] eqn:Hrest.
      simpl. intros ->. intros v.
      rewrite (IH filtered out) by (unfold outcome; rewrite Hrest; reflexivity).
      split.
      * intros [H|(d & n & t0 & Hv & Hin & Hrestn)]; [auto|].
        right. exists d, n, t0. simpl. auto 6.
      * intros [H|(d & n & t0 & Hv & [Hd|Hin] & Hn & Hg & Hs)]; [auto| |].
        -- subst d. congruence.
        -- right. exists d, n, t0. auto 6.
Qed.

(** The listing runs to its end when every definition has a name and the
    registry answers for it. *)
Lemma filter_tools_total (self : MCPHandler) (all_tools : list (dict pyval)) :
  (forall tool_def, In tool_def all_tools ->
     exists name tool, dict_get "name" tool_def = Some name
                       /\ get (_tool_registry self) name = inr tool) ->
  forall filtered, exists out, outcome (filter_tools self all_tools filtered) = inr out.
Proof.
  induction all_tools as [|tool_def rest IH]; intros Hwf filtered.
  - simpl. eauto.
  - destruct (Hwf tool_def (or_introl eq_refl)) as (name & tool & Hname & Hget).
    assert (Hrest : forall acc, exists out,
              outcome (filter_tools self rest acc) = inr out).
    { apply IH. intros d Hd. apply Hwf. right. exact Hd. }
    cbn [filter_tools].
    unfold tool_def_name, has_scope_call, bind, call, raise, ret, outcome.
    rewrite Hname. simpl. rewrite Hget. simpl.
    destruct tool as [tool|].
    + destruct (_has_scope self (getattr_required_scope tool)).
      * destruct (Hrest (filtered ++ [PDict tool_def])%list) as [out Hout].
        destruct (filter_tools self rest _) as [t r]. simpl in *. eauto.
      * destruct (Hrest filtered) as [out Hout].
        destruct (filter_tools self rest _) as [t r]. simpl in *. eauto.
    + destruct (Hrest filtered) as [out Hout].
      destruct (filter_tools self rest _) as [t r]. simpl in *. eauto.
Qed.

(** Against C3 as stated: a token without ["*"] is refused a tool that
    declares no scope.  The call is answered with code -32002 and the
    listing leaves the tool out. *)
Lemma undeclared_scope_is_not_open :
  required_scope (Demo.tool_ok None) = None
  /\ get Demo.registry (PStr "legacy") = inr (Some (Demo.tool_ok None))
  /\ _has_scope (Demo.handler Demo.reader)
       (getattr_required_scope (Demo.tool_ok None)) = false
  /\ outcome (handle Demo.rt (Demo.handler Demo.reader) (Demo.call_tool "legacy"))
     = inr (make_error_response (-32002) "Missing required scope: *"
              (PDict [("required_scope", PStr "*");
                      ("token_scopes", PList [PStr "data:read"])])
              (Some (IdInt 42)))
  /\ outcome (handle Demo.rt (Demo.handler Demo.reader) Demo.list_tools)
     = inr (make_success_response
              (PDict [("tools", PList [PDict [("name", PStr "search")];
                                       PDict [("name", PStr "crash")]])])
              (Some (IdInt 42))).
Proof.
  repeat split; reflexivity.
Qed.

(** C3, amended.  A tool that declares no [required_scope] is given the
    required scope ["*"]: the scope check passes exactly when the token
    holds ["*"].  Such a tool is run by [tools/call] when the token holds
    ["*"] and refused with code -32002 otherwise, and it appears in
    [tools/list] exactly when the token holds ["*"]. *)
Theorem undeclared_scope_requires_admin (rt : Runtime) (self : MCPHandler)
    (tool : Tool) :
  required_scope tool = None ->
  let granted := scopes (_token_info self) in
  (_has_scope self (getattr_required_scope tool) = true <-> In "*" granted)
  /\ (forall req,
        let params := params_or_empty (req_params req) in
        let tool_name := dict_get_default "name" PNone params in
        req_method req = "tools/call" ->
        truthy tool_name = true ->
        get (_tool_registry self) tool_name = inr (Some tool) ->
        (In "*" granted ->
           exists text isError,
             outcome (handle rt self req)
             = inr (make_success_response (text_content text isError) (req_id req)))
        /\ (~ In "*" granted ->
            outcome (handle rt self req)
            = inr (make_error_response (-32002) "Missing required scope: *"
                     (PDict [("required_scope", PStr "*");
                             ("token_scopes", PList (map PStr granted))])
                     (req_id req))))
  /\ (forall params all_tools tool_def name,
        get_mcp_definitions (_tool_registry self) = inr all_tools ->
        (forall d, In d all_tools ->
           exists n t, dict_get "name" d = Some n
                       /\ get (_tool_registry self) n = inr t) ->
        In tool_def all_tools ->
        dict_get "name" tool_def = Some name ->
        get (_tool_registry self) name = inr (Some tool) ->
        exists listed,
          outcome (_handle_tools_list self params) = inr (PDict [("tools", PList listed)])
          /\ (In (PDict tool_def) listed <-> In "*" granted)).
Proof.
  intros Hnone granted.
  assert (Hstar : getattr_required_scope tool = "*").
  { unfold getattr_required_scope. rewrite Hnone. reflexivity. }
  assert (Hiff : _has_scope self (getattr_required_scope tool) = true
                 <-> In "*" granted).
  { rewrite Hstar. unfold _has_scope. fold granted.
    destruct (Str.mem "*" granted) eqn:Hmem.
    - apply mem_In in Hmem. tauto.
    - simpl. apply mem_false_not_In in Hmem. split; [discriminate | tauto]. }
  split; [exact Hiff|]. split.
  - intros req params tool_name Hm Hname Hget.
    pose proof (handle_resolved rt self req _ (tools_call_resolved rt self req Hm))
      as Hh.
    fold params in Hh. split.
    + intros Hin. apply Hiff in Hin.
      destruct (tools_call_executes rt self params tool Hname Hget Hin)
        as (ctx & log & text & isError & _ & Hcall & _).
      exists text, isError. rewrite Hh, Hcall. reflexivity.
    + intros Hnot.
      assert (Hscope : _has_scope self (getattr_required_scope tool) = false).
      { destruct (_has_scope self (getattr_required_scope tool)); [|reflexivity].
        exfalso. apply Hnot, Hiff. reflexivity. }
      rewrite Hh, (tools_call_missing_scope rt self params tool Hname Hget Hscope).
      rewrite Hstar. reflexivity.
  - intros params all_tools tool_def name Hdefs Hwf Hin Hname Hget.
    destruct (filter_tools_total self all_tools Hwf []) as [listed Hlisted].
    exists listed. split.
    + unfold _handle_tools_list, bind, call, ret, outcome. rewrite Hdefs. simpl.
      destruct (filter_tools self all_tools []) as [t r]. simpl in Hlisted.
      subst r. reflexivity.
    + rewrite (filter_tools_spec self all_tools [] listed Hlisted).
      rewrite <- Hiff. split.
      * intros [[]|(d & n & t & Hv & _ & Hn & Hg & Hs)].
        inversion Hv; subst d. rewrite Hname in Hn. inversion Hn; subst n.
        rewrite Hget in Hg. inversion Hg; subst t. exact Hs.
      * intros Hs. right. exists tool_def, name, tool. auto 6.
Qed.

Lemma undeclared_scope_requires_admin_witness :
  _has_scope (Demo.handler Demo.admin) (getattr_required_scope (Demo.tool_ok None))
  = true
  <-> In "*" (scopes (_token_info (Demo.handler Demo.admin))).
Proof.
  exact (proj1 (undeclared_scope_requires_admin Demo.rt (Demo.handler Demo.admin)
                  (Demo.tool_ok None) eq_refl)).
Defined.

(** * Further properties of the endpoint *)

(** ** More on the scope matcher *)

Lemma string_app_cancel (p a b : string) : p ++ a = p ++ b -> a = b.
Proof.
  induction p as [|c p IH]; simpl; intros H; [exact H|].
  inversion H. auto.
Qed.

Lemma star_not_suffixed (q : string) : "*" <> q ++ ":*".
Proof.
  destruct q as [|a q]; simpl; [discriminate|].
  intros H. inversion H. destruct q; discriminate.
Qed.

(** X1. Granting more never takes access away: a token that holds every
    scope of another passes every check the other passes. *)
Theorem has_scope_monotone (self other : MCPHandler) (required_scope : string) :
  (forall s, In s (scopes (_token_info self)) -> In s (scopes (_token_info other))) ->
  _has_scope self required_scope = true ->
  _has_scope other required_scope = true.
Proof.
  intros Hsub H. apply has_scope_iff in H. apply has_scope_iff.
  destruct H as [H|[H|(p & rest & Hr & Hp & H)]].
  - left. auto.
  - right; left. auto.
  - right; right. exists p, rest. auto.
Qed.

Lemma has_scope_monotone_witness :
  _has_scope (Demo.handler {| token_name := "both"; scopes := ["x"; "data:read"] |})
    "data:read" = true.
Proof.
  apply (has_scope_monotone (Demo.handler Demo.reader)).
  - simpl. intros s [<-|[]]. auto.
  - reflexivity.
Defined.

(** X2. A wildcard is honoured at the first level only: a token whose one
    scope is [p:q:*] is refused [p:q:rest], unless [rest] is the star
    itself. *)
Theorem nested_wildcard_not_honoured (self : MCPHandler) (p q rest : string) :
  scopes (_token_info self) = [p ++ ":" ++ q ++ ":*"] ->
  Str.has_char colon p = false ->
  rest <> "*" ->
  _has_scope self (p ++ ":" ++ q ++ ":" ++ rest) = false.
Proof.
  intros Hs Hp Hrest.
  destruct (_has_scope self (p ++ ":" ++ q ++ ":" ++ rest)) eqn:E; [|reflexivity].
  exfalso. apply has_scope_iff in E. rewrite Hs in E. simpl in E.
  destruct E as [[H|[]]|[[H|[]]|(p' & rest' & Hr & Hp' & [H|[]])]].
  - destruct p; simpl in H; [discriminate|].
    inversion H. destruct p; discriminate.
  - apply string_app_cancel in H. inversion H.
    apply string_app_cancel in H1. inversion H1. congruence.
  - assert (Hpp : p = p').
    { rewrite <- (split_first_app colon p (q ++ ":" ++ rest) Hp).
      rewrite <- (split_first_app colon p' rest' Hp').
      f_equal. f_equal. exact Hr. }
    subst p'. apply string_app_cancel in H. inversion H as [Hq].
    exact (star_not_suffixed q (eq_sym Hq)).
Qed.

Lemma nested_wildcard_not_honoured_witness :
  _has_scope (Demo.handler {| token_name := "t"; scopes := ["data:products:*"] |})
    "data:products:read" = false.
Proof.
  apply (nested_wildcard_not_honoured
           (Demo.handler {| token_name := "t"; scopes := ["data:products:*"] |})
           "data" "products" "read").
  - reflexivity.
  - reflexivity.
  - discriminate.
Defined.

(** X3. A required scope without a [:] is granted by the star or by itself
    and by nothing else; [admin:*] does not grant [admin]. *)
Theorem scope_without_colon (self : MCPHandler) (required_scope : string) :
  Str.has_char colon required_scope = false ->
  (_has_scope self required_scope = true <->
     In "*" (scopes (_token_info self))
     \/ In required_scope (scopes (_token_info self))).
Proof.
  intros Hno. rewrite has_scope_iff. split.
  - intros [H|[H|(p & rest & Hr & _)]]; auto.
    rewrite Hr, has_char_app in Hno. discriminate.
  - intros [H|H]; auto.
Qed.

Lemma scope_without_colon_witness :
  _has_scope (Demo.handler {| token_name := "t"; scopes := ["admin:*"] |}) "admin"
  = true
  <-> In "*" ["admin:*"] \/ In "admin" ["admin:*"].
Proof.
  apply (scope_without_colon
           (Demo.handler {| token_name := "t"; scopes := ["admin:*"] |}) "admin").
  reflexivity.
Defined.

(** ** More on [tools/list] *)

(** Over definitions the registry answers for, the loop is a filter. *)
Lemma filter_tools_app (self : MCPHandler) (good rest : list (dict pyval)) :
  registry_answers self good ->
  forall filtered,
    outcome (filter_tools self (good ++ rest) filtered)
    = outcome (filter_tools self rest
                 (filtered ++ map PDict (filter (tool_visible self) good))).
Proof.
  induction good as [|tool_def good IH]; intros Hwf filtered.
  - simpl. rewrite app_nil_r. reflexivity.
  - destruct (Hwf tool_def (or_introl eq_refl)) as (name & tool & Hname & Hget).
    assert (Hgood : registry_answers self good).
    { intros d Hd. apply Hwf. right. exact Hd. }
    specialize (IH Hgood).
    cbn [app filter_tools filter].
    unfold tool_visible at 1. rewrite Hname, Hget.
    unfold tool_def_name, has_scope_call, bind, call, raise, ret.
    rewrite Hname. cbn iota beta. rewrite Hget. cbn iota beta.
    destruct tool as [tool|].
    + destruct (_has_scope self (getattr_required_scope tool)).
      * specialize (IH (filtered ++ [PDict tool_def])%list).
        destruct (filter_tools self (good ++ rest) _) as [t r].
        simpl in IH. subst r. cbn [map]. rewrite <- app_assoc. reflexivity.
      * specialize (IH filtered).
        destruct (filter_tools self (good ++ rest) _) as [t r].
        simpl in IH. subst r. reflexivity.
    + specialize (IH filtered).
      destruct (filter_tools self (good ++ rest) _) as [t r].
      simpl in IH. subst r. reflexivity.
Qed.

Lemma tools_list_resolved (rt : Runtime) (self : MCPHandler) (req : JSONRPCRequest) :
  req_method req = "tools/list" ->
  dict_get (req_method req) (handlers rt self) = Some (_handle_tools_list self).
Proof.
  intros ->. reflexivity.
Qed.

Lemma tools_list_outcome (self : MCPHandler) (params : dict pyval)
    (all_tools : list (dict pyval)) :
  get_mcp_definitions (_tool_registry self) = inr all_tools ->
  outcome (_handle_tools_list self params)
  = match outcome (filter_tools self all_tools []) with
    | inl e => inl e
    | inr filtered_tools => inr (PDict [("tools", PList filtered_tools)])
    end.
Proof.
  intros Hdefs. unfold _handle_tools_list, bind, call, ret, outcome.
  rewrite Hdefs. simpl.
  destruct (filter_tools self all_tools []) as [t [e|l]]; reflexivity.
Qed.

Lemma handle_outcome (rt : Runtime) (self : MCPHandler) (req : JSONRPCRequest)
    (handler : dict pyval -> M pyval) :
  dict_get (req_method req) (handlers rt self) = Some handler ->
  outcome (handle rt self req)
  = inr match outcome (handler (params_or_empty (req_params req))) with
        | inr result => make_success_response result (req_id req)
        | inl (MCPError code message data) =>
            make_error_response code message data (req_id req)
        | inl (OtherException text) =>
            make_error_response JSONRPC_INTERNAL_ERROR ("Internal error: " ++ text)
              PNone (req_id req)
        end.
Proof.
  intros Hres. rewrite (handle_resolved rt self req handler Hres).
  destruct (handler _) as [t [[c m d|text]|result]]; reflexivity.
Qed.

(** X4. When the registry answers for every definition, [tools/list]
    returns, in the registry's order, exactly the definitions whose tool the
    registry knows and whose required scope the token has. *)
Theorem tools_list_is_filter (rt : Runtime) (self : MCPHandler)
    (req : JSONRPCRequest) (all_tools : list (dict pyval)) :
  req_method req = "tools/list" ->
  get_mcp_definitions (_tool_registry self) = inr all_tools ->
  registry_answers self all_tools ->
  outcome (handle rt self req)
  = inr (make_success_response
           (PDict [("tools",
                    PList (map PDict (filter (tool_visible self) all_tools)))])
           (req_id req)).
Proof.
  intros Hm Hdefs Hwf.
  rewrite (handle_outcome rt self req _ (tools_list_resolved rt self req Hm)).
  rewrite (tools_list_outcome self _ all_tools Hdefs).
  pose proof (filter_tools_app self all_tools [] Hwf []) as H.
  rewrite app_nil_r in H. rewrite H. reflexivity.
Qed.

Lemma tools_list_is_filter_witness :
  outcome (handle Demo.rt (Demo.handler Demo.data_all) Demo.list_tools)
  = inr (make_success_response
           (PDict [("tools", PList [PDict [("name", PStr "search")];
                                    PDict [("name", PStr "update")];
                                    PDict [("name", PStr "crash")]])])
           (Some (IdInt 42))).
Proof.
  apply (tools_list_is_filter Demo.rt (Demo.handler Demo.data_all) Demo.list_tools
           [[("name", PStr "search")]; [("name", PStr "update")];
            [("name", PStr "crash")]; [("name", PStr "legacy")]]).
  - reflexivity.
  - reflexivity.
  - intros d [<-|[<-|[<-|[<-|[]]]]]; eexists _, _; split; reflexivity.
Defined.

(** X5. A token that holds the star is shown every definition whose tool
    the registry knows, unfiltered and in order. *)
Theorem admin_lists_every_tool (rt : Runtime) (self : MCPHandler)
    (req : JSONRPCRequest) (all_tools : list (dict pyval)) :
  req_method req = "tools/list" ->
  In "*" (scopes (_token_info self)) ->
  get_mcp_definitions (_tool_registry self) = inr all_tools ->
  (forall tool_def, In tool_def all_tools ->
     exists name tool, dict_get "name" tool_def = Some name
                       /\ get (_tool_registry self) name = inr (Some tool)) ->
  outcome (handle rt self req)
  = inr (make_success_response (PDict [("tools", PList (map PDict all_tools))])
           (req_id req)).
Proof.
  intros Hm Hstar Hdefs Hknown.
  assert (Hwf : registry_answers self all_tools).
  { intros d Hd. destruct (Hknown d Hd) as (n & t & Hn & Hg). eauto. }
  rewrite (handle_outcome rt self req _ (tools_list_resolved rt self req Hm)).
  rewrite (tools_list_outcome self _ all_tools Hdefs).
  pose proof (filter_tools_app self all_tools [] Hwf []) as H.
  rewrite app_nil_r in H. rewrite H. cbn [outcome filter_tools ret snd app].
  replace (filter (tool_visible self) all_tools) with all_tools; [reflexivity|].
  clear H Hdefs Hwf. induction all_tools as [|d l IH]; [reflexivity|].
  cbn [filter].
  destruct (Hknown d (or_introl eq_refl)) as (n & t & Hn & Hg).
  unfold tool_visible at 1. rewrite Hn, Hg.
  assert (Hs : _has_scope self (getattr_required_scope t) = true).
  { apply has_scope_iff. left. exact Hstar. }
  rewrite Hs. f_equal. apply IH. intros d' Hd'. apply Hknown. right. exact Hd'.
Qed.

Lemma admin_lists_every_tool_witness :
  outcome (handle Demo.rt (Demo.handler Demo.admin) Demo.list_tools)
  = inr (make_success_response
           (PDict [("tools", PList [PDict [("name", PStr "search")];
                                    PDict [("name", PStr "update")];
                                    PDict [("name", PStr "crash")];
                                    PDict [("name", PStr "legacy")]])])
           (Some (IdInt 42))).
Proof.
  apply (admin_lists_every_tool Demo.rt (Demo.handler Demo.admin) Demo.list_tools
           [[("name", PStr "search")]; [("name", PStr "update")];
            [("name", PStr "crash")]; [("name", PStr "legacy")]]).
  - reflexivity.
  - simpl. auto.
  - reflexivity.
  - intros d [<-|[<-|[<-|[<-|[]]]]]; eexists _, _; split; reflexivity.
Defined.

(** X6. Listing and calling agree.  A definition that [tools/list] returned
    names a tool that [tools/call] runs: the call is answered with a success
    envelope, never with a lookup or scope error.  And when the registry
    answers for every definition, a definition that was left out names a
    tool the call refuses, with code -32601 or -32002. *)
Theorem listed_iff_callable (rt : Runtime) (self : MCPHandler)
    (params : dict pyval) (listed : list pyval) (all_tools : list (dict pyval))
    (tool_def : dict pyval) (name : pyval) (req : JSONRPCRequest) :
  outcome (_handle_tools_list self params) = inr (PDict [("tools", PList listed)]) ->
  get_mcp_definitions (_tool_registry self) = inr all_tools ->
  In tool_def all_tools ->
  dict_get "name" tool_def = Some name ->
  truthy name = true ->
  req_method req = "tools/call" ->
  dict_get "name" (params_or_empty (req_params req)) = Some name ->
  (In (PDict tool_def) listed ->
     exists text isError,
       outcome (handle rt self req)
       = inr (make_success_response (text_content text isError) (req_id req)))
  /\ (registry_answers self all_tools ->
      ~ In (PDict tool_def) listed ->
      exists code message data,
        outcome (handle rt self req)
        = inr (make_error_response code message data (req_id req))
        /\ (code = -32601 \/ code = -32002)).
Proof.
  intros Hlist Hdefs Hin Hname Htruthy Hm Hparam.
  rewrite (tools_list_outcome self params all_tools Hdefs) in Hlist.
  destruct (outcome (filter_tools self all_tools [])) as [e|out] eqn:Hout;
    [discriminate|].
  inversion Hlist; subst out; clear Hlist.
  pose proof (filter_tools_spec self all_tools [] listed Hout (PDict tool_def))
    as Hspec.
  pose proof (handle_resolved rt self req _ (tools_call_resolved rt self req Hm))
    as Hh.
  assert (Hn : dict_get_default "name" PNone (params_or_empty (req_params req))
               = name).
  { unfold dict_get_default. rewrite Hparam. reflexivity. }
  assert (Ht : truthy (dict_get_default "name" PNone
                         (params_or_empty (req_params req))) = true).
  { rewrite Hn. exact Htruthy. }
  split.
  - intros Hl. apply Hspec in Hl.
    destruct Hl as [[]|(d & n & tool & Hv & _ & Hdn & Hg & Hs)].
    inversion Hv; subst d. rewrite Hname in Hdn. inversion Hdn; subst n.
    rewrite <- Hn in Hg.
    destruct (tools_call_executes rt self _ tool Ht Hg Hs)
      as (ctx & log & text & isError & _ & Hcall & _).
    exists text, isError. rewrite Hh, Hcall. reflexivity.
  - intros Hwf Hnot.
    destruct (Hwf tool_def Hin) as (n & tool & Hdn & Hg).
    rewrite Hname in Hdn. inversion Hdn; subst n. rewrite <- Hn in Hg.
    destruct tool as [tool|].
    + assert (Hs : _has_scope self (getattr_required_scope tool) = false).
      { destruct (_has_scope self (getattr_required_scope tool)) eqn:Hs;
          [|reflexivity].
        exfalso. apply Hnot, Hspec. right. exists tool_def, name, tool.
        rewrite Hn in Hg. auto 6. }
      rewrite Hh, (tools_call_missing_scope rt self _ tool Ht Hg Hs).
      eexists _, _, _. split; [reflexivity|]. right. reflexivity.
    + rewrite Hh, (tools_call_unknown_tool rt self _ Ht Hg).
      eexists _, _, _. split; [reflexivity|]. left. reflexivity.
Qed.

Lemma listed_iff_callable_witness :
  exists text isError,
    outcome (handle Demo.rt (Demo.handler Demo.reader) (Demo.call_tool "search"))
    = inr (make_success_response (text_content text isError) (Some (IdInt 42))).
Proof.
  apply (proj1 (listed_iff_callable Demo.rt (Demo.handler Demo.reader) []
                  [PDict [("name", PStr "search")]; PDict [("name", PStr "crash")]]
                  [[("name", PStr "search")]; [("name", PStr "update")];
                   [("name", PStr "crash")]; [("name", PStr "legacy")]]
                  [("name", PStr "search")] (PStr "search")
                  (Demo.call_tool "search")
                  eq_refl eq_refl (or_introl eq_refl) eq_refl eq_refl eq_refl
                  eq_refl)).
  simpl. auto.
Defined.

(** X7. A listing that fails is an internal error: when the registry raises
    on [get_mcp_definitions], and when a definition has no ["name"] (the
    [KeyError] of the subscript), [tools/list] is answered with code -32603
    and no tool at all. *)
Theorem tools_list_failure (rt : Runtime) (self : MCPHandler) (req : JSONRPCRequest) :
  req_method req = "tools/list" ->
  (forall text,
     get_mcp_definitions (_tool_registry self) = inl (OtherException text) ->
     outcome (handle rt self req)
     = inr (make_error_response (-32603) ("Internal error: " ++ text) PNone
              (req_id req)))
  /\ (forall good tool_def rest,
        get_mcp_definitions (_tool_registry self)
        = inr (good ++ tool_def :: rest)%list ->
        registry_answers self good ->
        dict_get "name" tool_def = None ->
        outcome (handle rt self req)
        = inr (make_error_response (-32603) "Internal error: 'name'" PNone
                 (req_id req))).
Proof.
  intros Hm.
  pose proof (handle_outcome rt self req _ (tools_list_resolved rt self req Hm))
    as Hh.
  split.
  - intros text Hdefs. rewrite Hh.
    unfold _handle_tools_list, bind, call, outcome. rewrite Hdefs. reflexivity.
  - intros good tool_def rest Hdefs Hwf Hname. rewrite Hh.
    rewrite (tools_list_outcome self _ _ Hdefs).
    rewrite (filter_tools_app self good (tool_def :: rest) Hwf []).
    cbn [filter_tools]. unfold tool_def_name. rewrite Hname. reflexivity.
Qed.

Lemma tools_list_failure_witness :
  outcome (handle Demo.rt
             {| _db := Demo.db; _settings := Demo.settings;
                _token_info := Demo.admin; _request := Demo.request PNone;
                _tool_registry :=
                  {| get_mcp_definitions :=
                       inr [[("name", PStr "search")]; [("title", PStr "nameless")]];
                     get := get Demo.registry |} |}
             Demo.list_tools)
  = inr (make_error_response (-32603) "Internal error: 'name'" PNone
           (Some (IdInt 42))).
Proof.
  refine (proj2 (tools_list_failure Demo.rt
                   {| _db := Demo.db; _settings := Demo.settings;
                      _token_info := Demo.admin; _request := Demo.request PNone;
                      _tool_registry :=
                        {| get_mcp_definitions :=
                             inr [[("name", PStr "search")];
                                  [("title", PStr "nameless")]];
                           get := get Demo.registry |} |}
                   Demo.list_tools eq_refl)
            [[("name", PStr "search")]] [("title", PStr "nameless")] []
            eq_refl _ eq_refl).
  intros d [<-|[]]. eexists _, _. split; reflexivity.
Defined.

(** ** More on [tools/call] *)

Section ToolOutcome.

Variables (rt : Runtime) (self : MCPHandler) (req : JSONRPCRequest) (tool : Tool).

Let params := params_or_empty (req_params req).
Let tool_name := dict_get_default "name" PNone params.
Let tool_args := dict_get_default "arguments" (PDict []) params.

Hypothesis Hmethod : req_method req = "tools/call".
Hypothesis Hname : truthy tool_name = true.
Hypothesis Hget : get (_tool_registry self) tool_name = inr (Some tool).
Hypothesis Hscope : _has_scope self (getattr_required_scope tool) = true.

(** X8. A tool that reports success is answered with its data, serialized,
    in a content block with [isError] false; nothing is logged. *)
Theorem tool_success_payload (result : ToolResult) (text : string) :
  (forall ctx, outcome (_create_tool_context self) = inr ctx ->
               execute tool ctx tool_args = inr result) ->
  success result = true ->
  json_dumps rt (data result) = inr text ->
  handle rt self req
  = ([EvRegistryGet tool_name; EvHasScope (getattr_required_scope tool);
      EvCreateContext; EvExecute tool_args],
     inr (make_success_response
            (PDict [("content", PList [PDict [("type", PStr "text");
                                              ("text", PStr text)]]);
                    ("isError", PBool false)])
            (req_id req))).
Proof.
  intros Hexec Hsucc Hdump.
  destruct (tools_call_executes rt self params tool Hname Hget Hscope)
    as (ctx & log & text' & isError & Hctx & Hcall & _ & _ & Hok).
  destruct (Hok result text (Hexec ctx Hctx) Hsucc Hdump) as (-> & -> & ->).
  rewrite (handle_resolved rt self req _ (tools_call_resolved rt self req Hmethod)).
  fold params. rewrite Hcall. reflexivity.
Qed.

(** X9. A tool that reports failure is answered with its error string in a
    content block with [isError] true, and with ["Unknown error"] when the
    error is [None] or empty; the envelope is still a success. *)
Theorem tool_declared_failure_payload (result : ToolResult) :
  (forall ctx, outcome (_create_tool_context self) = inr ctx ->
               execute tool ctx tool_args = inr result) ->
  success result = false ->
  let text := match error result with
              | Some "" | None => "Unknown error"
              | Some s => s
              end in
  handle rt self req
  = ([EvRegistryGet tool_name; EvHasScope (getattr_required_scope tool);
      EvCreateContext; EvExecute tool_args],
     inr (make_success_response
            (PDict [("content", PList [PDict [("type", PStr "text");
                                              ("text", PStr text)]]);
                    ("isError", PBool true)])
            (req_id req))).
Proof.
  intros Hexec Hfail text.
  destruct (tools_call_executes rt self params tool Hname Hget Hscope)
    as (ctx & log & text' & isError & Hctx & Hcall & _ & Hko & _).
  destruct (Hko result (Hexec ctx Hctx) Hfail) as (-> & -> & ->).
  rewrite (handle_resolved rt self req _ (tools_call_resolved rt self req Hmethod)).
  fold params. rewrite Hcall.
  assert (Htext : str_or (error result) "Unknown error" = text).
  { unfold str_or, text. destruct (error result) as [[|a s]|]; reflexivity. }
  rewrite Htext. reflexivity.
Qed.

(** X10. A result that cannot be serialized is a tool failure too: when
    [json.dumps] raises on the data of a successful result, the answer is a
    success envelope whose content block has [isError] true, and the failure
    is logged. *)
Theorem serialization_failure_is_payload_error (result : ToolResult) (e : exn) :
  (forall ctx, outcome (_create_tool_context self) = inr ctx ->
               execute tool ctx tool_args = inr result) ->
  success result = true ->
  json_dumps rt (data result) = inl e ->
  handle rt self req
  = ([EvRegistryGet tool_name; EvHasScope (getattr_required_scope tool);
      EvCreateContext; EvExecute tool_args;
      EvLogError ("Error executing tool " ++ format_value rt tool_name ++ ": "
                  ++ exn_str e)],
     inr (make_success_response
            (PDict [("content",
                     PList [PDict [("type", PStr "text");
                                   ("text", PStr ("Tool execution failed: "
                                                  ++ exn_str e))]]);
                    ("isError", PBool true)])
            (req_id req))).
Proof.
  intros Hexec Hsucc Hdump.
  rewrite (handle_resolved rt self req _ (tools_call_resolved rt self req Hmethod)).
  fold params.
  assert (Hcall : _handle_tools_call rt self params
            = ([EvRegistryGet tool_name; EvHasScope (getattr_required_scope tool);
                EvCreateContext; EvExecute tool_args;
                EvLogError ("Error executing tool " ++ format_value rt tool_name
                            ++ ": " ++ exn_str e)],
               inr (text_content ("Tool execution failed: " ++ exn_str e) true))).
  { unfold _handle_tools_call, has_scope_call, try_except, bind, call, tell,
      raise, ret.
    fold tool_name. fold tool_args. rewrite Hname, Hget. cbn iota beta.
    rewrite Hscope. cbn iota beta.
    unfold _create_tool_context, call in *. cbn iota beta.
    rewrite (Hexec _ eq_refl). cbn iota beta. rewrite Hsucc, Hdump. reflexivity. }
  rewrite Hcall. reflexivity.
Qed.

End ToolOutcome.

Lemma tool_success_payload_witness :
  handle Demo.rt (Demo.handler Demo.reader) (Demo.call_tool "search")
  = ([EvRegistryGet (PStr "search"); EvHasScope "data:read"; EvCreateContext;
      EvExecute (PDict [])],
     inr (make_success_response (text_content "done" false) (Some (IdInt 42)))).
Proof.
  apply (tool_success_payload Demo.rt (Demo.handler Demo.reader)
           (Demo.call_tool "search") (Demo.tool_ok (Some "data:read"))
           eq_refl eq_refl eq_refl eq_refl Demo.done "done");
    reflexivity.
Defined.

Lemma tool_declared_failure_payload_witness :
  outcome (handle Demo.rt
             {| _db := Demo.db; _settings := Demo.settings;
                _token_info := Demo.admin; _request := Demo.request PNone;
                _tool_registry :=
                  {| get_mcp_definitions := inr [];
                     get := fun _ =>
                       inr (Some {| required_scope := Some "x";
                                    execute := fun _ _ =>
                                      inr {| success := false; data := PNone;
                                             error := Some "" |} |}) |} |}
             (Demo.call_tool "any"))
  = inr (make_success_response (text_content "Unknown error" true) (Some (IdInt 42))).
Proof.
  exact (f_equal snd
           (tool_declared_failure_payload Demo.rt
              {| _db := Demo.db; _settings := Demo.settings;
                 _token_info := Demo.admin; _request := Demo.request PNone;
                 _tool_registry :=
                   {| get_mcp_definitions := inr [];
                      get := fun _ =>
                        inr (Some {| required_scope := Some "x";
                                     execute := fun _ _ =>
                                       inr {| success := false; data := PNone;
                                              error := Some "" |} |}) |} |}
              (Demo.call_tool "any")
              {| required_scope := Some "x";
                 execute := fun _ _ =>
                   inr {| success := false; data := PNone; error := Some "" |} |}
              eq_refl eq_refl eq_refl eq_refl
              {| success := false; data := PNone; error := Some "" |}
              (fun _ _ => eq_refl) eq_refl)).
Defined.

Lemma serialization_failure_is_payload_error_witness :
  outcome (handle
             {| create_default_registry := inr Demo.registry;
                utcnow_isoformat := "now";
                builtin_str := fun _ => "<value>";
                json_dumps := fun _ => inl (OtherException "Circular reference detected");
                validation_error_str := fun _ => "validation error" |}
             (Demo.handler Demo.reader) (Demo.call_tool "search"))
  = inr (make_success_response
           (text_content "Tool execution failed: Circular reference detected" true)
           (Some (IdInt 42))).
Proof.
  exact (f_equal snd
           (serialization_failure_is_payload_error
              {| create_default_registry := inr Demo.registry;
                 utcnow_isoformat := "now";
                 builtin_str := fun _ => "<value>";
                 json_dumps := fun _ =>
                   inl (OtherException "Circular reference detected");
                 validation_error_str := fun _ => "validation error" |}
              (Demo.handler Demo.reader) (Demo.call_tool "search")
              (Demo.tool_ok (Some "data:read"))
              eq_refl eq_refl eq_refl eq_refl Demo.done
              (OtherException "Circular reference detected")
              (fun _ _ => eq_refl) eq_refl eq_refl)).
Defined.

(** ** More on the dispatcher *)

(** X11. [initialize], [notifications/initialized] and [ping] are answered
    without looking at the token, the registry or the parameters: two
    handlers and two requests that agree on the method and the identifier
    get the same answer, and no collaborator is called. *)
Theorem lifecycle_methods_need_no_scope (rt : Runtime) (self other : MCPHandler)
    (req req' : JSONRPCRequest) :
  In (req_method req) ["initialize"; "notifications/initialized"; "ping"] ->
  req_method req' = req_method req ->
  req_id req' = req_id req ->
  handle rt self req = handle rt other req'
  /\ trace (handle rt self req) = []
  /\ exists result, outcome (handle rt self req)
                    = inr (make_success_response result (req_id req)).
Proof.
  intros Hin Hm Hid. unfold handle. rewrite Hm, Hid.
  destruct Hin as [<-|[<-|[<-|[]]]]; simpl; repeat split; eauto.
Qed.

Lemma lifecycle_methods_need_no_scope_witness :
  handle Demo.rt (Demo.handler Demo.admin)
    {| req_jsonrpc := "2.0"; req_method := "ping"; req_params := None;
       req_id := Some (IdInt 1) |}
  = handle Demo.rt (Demo.handler {| token_name := "none"; scopes := [] |})
      {| req_jsonrpc := "1.0"; req_method := "ping";
         req_params := Some [("name", PStr "x")]; req_id := Some (IdInt 1) |}.
Proof.
  apply (lifecycle_methods_need_no_scope Demo.rt (Demo.handler Demo.admin)
           (Demo.handler {| token_name := "none"; scopes := [] |})
           {| req_jsonrpc := "2.0"; req_method := "ping"; req_params := None;
              req_id := Some (IdInt 1) |}
           {| req_jsonrpc := "1.0"; req_method := "ping";
              req_params := Some [("name", PStr "x")]; req_id := Some (IdInt 1) |}).
  - simpl. auto.
  - reflexivity.
  - reflexivity.
Defined.

(** ** More on the pipeline *)

Section PipelineRun.

Variables (rt : Runtime) (request : Request) (db : Session) (settings : obj).
Variables (x_api_key : option string) (key : string) (token_info : MCPTokenInfo).

Hypothesis Hkey : header_present x_api_key = Some key.
Hypothesis Hval : validate_token db key = inr (Some token_info).

(** X12. A body that does not parse is answered with code -32700, the
    message of the parser and no id; the registry is not built and nothing
    is committed. *)
Theorem parse_error_response (e : exn) :
  json request = inl e ->
  mcp_handler rt request db settings x_api_key
  = ([EvValidateToken key; EvRequestJson],
     inr (PDict [("jsonrpc", PStr "2.0"); ("result", PNone);
                 ("error", PDict [("code", PInt (-32700));
                                  ("message",
                                   PStr ("Failed to parse JSON: " ++ exn_str e));
                                  ("data", PNone)]);
                 ("id", PNone)])).
Proof.
  intros Hjson.
  unfold mcp_handler, try_or_return, try_except, bind, call, ret.
  rewrite Hkey, Hval, Hjson. reflexivity.
Qed.

Variables (body : pyval) (rpc_request : JSONRPCRequest).

Hypothesis Hjson : json request = inr body.
Hypothesis Hinit : JSONRPCRequest_init rt body = inr rpc_request.

(** A failure to build the registry leaves the pipeline as it is. *)
Lemma pipeline_registry_failure (e : exn) :
  create_default_registry rt = inl e ->
  mcp_handler rt request db settings x_api_key
  = ([EvValidateToken key; EvRequestJson;
      EvLogInfo ("MCP request: method=" ++ req_method rpc_request ++ ", token="
                 ++ token_name token_info);
      EvCreateRegistry],
     inl e).
Proof.
  intros Hreg.
  unfold mcp_handler, try_or_return, MCPHandler_init, try_except, bind, call,
    tell, ret.
  rewrite Hkey, Hval, Hjson. cbn iota beta. rewrite Hinit. cbn iota beta.
  rewrite Hreg. reflexivity.
Qed.

Variable registry : ToolRegistry.

Hypothesis Hreg : create_default_registry rt = inr registry.

Let self : MCPHandler :=
  {| _db := db; _settings := settings; _token_info := token_info;
     _request := request; _tool_registry := registry |}.

Let prologue : list event :=
  [EvValidateToken key; EvRequestJson;
   EvLogInfo ("MCP request: method=" ++ req_method rpc_request ++ ", token="
              ++ token_name token_info);
   EvCreateRegistry].

(** The whole run of a request that reaches the dispatcher. *)
Lemma pipeline_run (t : list event) (resp : JSONRPCResponse) :
  handle rt self rpc_request = (t, inr resp) ->
  mcp_handler rt request db settings x_api_key
  = match commit db with
    | inr _ => ((prologue ++ t ++ [EvCommit])%list, inr (model_dump resp))
    | inl e =>
        ((prologue ++ t
          ++ [EvCommit; EvLogError ("Error committing MCP changes: " ++ exn_str e);
              EvRollback])%list,
         match rollback db with
         | inr _ => inr (model_dump resp)
         | inl e' => inl e'
         end)
    end.
Proof.
  intros Hh.
  unfold mcp_handler, try_or_return, MCPHandler_init, try_except, bind, call,
    tell, ret.
  rewrite Hkey, Hval, Hjson. cbn iota beta. rewrite Hinit. cbn iota beta.
  rewrite Hreg. cbn iota beta. fold self. rewrite Hh. cbn iota beta.
  destruct (commit db) as [e|[]]; cbn iota beta.
  - destruct (rollback db) as [e'|[]]; cbn iota beta;
      unfold prologue; simpl; rewrite ?app_nil_r; reflexivity.
  - unfold prologue. simpl. rewrite ?app_nil_r. reflexivity.
Qed.

(** X13. A commit that fails does not change the answer: the failure is
    logged, the session rolled back, and the client gets the response
    [handle] computed. *)
Theorem commit_failure_keeps_response (e : exn) :
  commit db = inl e ->
  rollback db = inr tt ->
  exists t resp,
    handle rt self rpc_request = (t, inr resp)
    /\ mcp_handler rt request db settings x_api_key
       = ((prologue ++ t
           ++ [EvCommit; EvLogError ("Error committing MCP changes: " ++ exn_str e);
               EvRollback])%list,
          inr (model_dump resp)).
Proof.
  intros Hc Hr.
  destruct (handle_returns rt self rpc_request) as [resp [Hresp _]].
  destruct (handle rt self rpc_request) as [t r] eqn:Hh.
  simpl in Hresp. subst r. exists t, resp. split; [reflexivity|].
  rewrite (pipeline_run t resp Hh), Hc, Hr. reflexivity.
Qed.

(** X14. When the commit fails and the rollback fails as well, the
    exception of the rollback leaves the endpoint: no envelope is
    returned. *)
Theorem rollback_failure_escapes (e e' : exn) :
  commit db = inl e ->
  rollback db = inl e' ->
  outcome (mcp_handler rt request db settings x_api_key) = inl e'.
Proof.
  intros Hc Hr.
  destruct (handle_returns rt self rpc_request) as [resp [Hresp _]].
  destruct (handle rt self rpc_request) as [t r] eqn:Hh.
  simpl in Hresp. subst r.
  rewrite (pipeline_run t resp Hh), Hc, Hr. reflexivity.
Qed.

End PipelineRun.

Lemma parse_error_response_witness :
  mcp_handler Demo.rt
    {| app_state := Demo.state; json := inl (OtherException "Expecting value") |}
    Demo.db Demo.settings (Some "reader-key")
  = ([EvValidateToken "reader-key"; EvRequestJson],
     inr (PDict [("jsonrpc", PStr "2.0"); ("result", PNone);
                 ("error", PDict [("code", PInt (-32700));
                                  ("message",
                                   PStr "Failed to parse JSON: Expecting value");
                                  ("data", PNone)]);
                 ("id", PNone)])).
Proof.
  exact (parse_error_response Demo.rt
           {| app_state := Demo.state; json := inl (OtherException "Expecting value") |}
           Demo.db Demo.settings (Some "reader-key") "reader-key" Demo.reader
           eq_refl eq_refl (OtherException "Expecting value") eq_refl).
Defined.

Lemma commit_failure_keeps_response_witness :
  exists t resp,
    handle Demo.rt
      {| _db := {| validate_token := validate_token Demo.db;
                   commit := inl (OtherException "disk full");
                   rollback := inr tt |};
         _settings := Demo.settings; _token_info := Demo.reader;
         _request := Demo.request Demo.body_ping;
         _tool_registry := Demo.registry |}
      {| req_jsonrpc := "2.0"; req_method := "ping"; req_params := None;
         req_id := Some (IdInt 42) |}
    = (t, inr resp)
    /\ mcp_handler Demo.rt (Demo.request Demo.body_ping)
         {| validate_token := validate_token Demo.db;
            commit := inl (OtherException "disk full");
            rollback := inr tt |}
         Demo.settings (Some "reader-key")
       = (([EvValidateToken "reader-key"; EvRequestJson;
            EvLogInfo "MCP request: method=ping, token=reader"; EvCreateRegistry]
           ++ t
           ++ [EvCommit; EvLogError "Error committing MCP changes: disk full";
               EvRollback])%list,
          inr (model_dump resp)).
Proof.
  exact (commit_failure_keeps_response Demo.rt (Demo.request Demo.body_ping)
           {| validate_token := validate_token Demo.db;
              commit := inl (OtherException "disk full");
              rollback := inr tt |}
           Demo.settings (Some "reader-key") "reader-key" Demo.reader
           eq_refl eq_refl Demo.body_ping
           {| req_jsonrpc := "2.0"; req_method := "ping"; req_params := None;
              req_id := Some (IdInt 42) |}
           eq_refl eq_refl Demo.registry eq_refl
           (OtherException "disk full") eq_refl eq_refl).
Defined.

Lemma rollback_failure_escapes_witness :
  outcome (mcp_handler Demo.rt (Demo.request Demo.body_ping)
             {| validate_token := validate_token Demo.db;
                commit := inl (OtherException "disk full");
                rollback := inl (OtherException "connection lost") |}
             Demo.settings (Some "reader-key"))
  = inl (OtherException "connection lost").
Proof.
  exact (rollback_failure_escapes Demo.rt (Demo.request Demo.body_ping)
           {| validate_token := validate_token Demo.db;
              commit := inl (OtherException "disk full");
              rollback := inl (OtherException "connection lost") |}
           Demo.settings (Some "reader-key") "reader-key" Demo.reader
           eq_refl eq_refl Demo.body_ping
           {| req_jsonrpc := "2.0"; req_method := "ping"; req_params := None;
              req_id := Some (IdInt 42) |}
           eq_refl eq_refl Demo.registry eq_refl
           (OtherException "disk full") (OtherException "connection lost")
           eq_refl eq_refl).
Defined.

(** X15. A rejected credential is answered before the request is looked at:
    whatever the body and the settings, the answer is the same. *)
Theorem auth_failure_ignores_request (rt rt' : Runtime) (request request' : Request)
    (db : Session) (settings settings' : obj) (x_api_key : option string) :
  header_present x_api_key = None
  \/ (exists key, header_present x_api_key = Some key
                  /\ validate_token db key = inr None) ->
  mcp_handler rt request db settings x_api_key
  = mcp_handler rt' request' db settings' x_api_key
  /\ ~ In EvRequestJson (trace (mcp_handler rt request db settings x_api_key)).
Proof.
  intros [Hkey|(key & Hkey & Hval)].
  - rewrite !(pipeline_missing_header _ _ _ _ _ Hkey). simpl. tauto.
  - rewrite !(pipeline_rejected_token _ _ _ _ _ key Hkey Hval). simpl.
    split; [reflexivity|]. intros [H|[]]. discriminate H.
Qed.

Lemma auth_failure_ignores_request_witness :
  mcp_handler Demo.rt (Demo.request Demo.body_ping) Demo.db Demo.settings None
  = mcp_handler Demo.rt (Demo.request (PStr "junk")) Demo.db (Obj 7) None.
Proof.
  apply (auth_failure_ignores_request Demo.rt Demo.rt (Demo.request Demo.body_ping)
           (Demo.request (PStr "junk")) Demo.db Demo.settings (Obj 7) None).
  left. reflexivity.
Defined.

(** X16. Failures of the store and of the registry are no authorization
    failures: an exception of [validate_token] leaves the endpoint as it is,
    before the body is read, and so does an exception of
    [create_default_registry], before anything is committed. *)
Theorem collaborator_errors_propagate (rt : Runtime) (request : Request)
    (db : Session) (settings : obj) (x_api_key : option string) (key : string)
    (e : exn) :
  header_present x_api_key = Some key ->
  (validate_token db key = inl e ->
     mcp_handler rt request db settings x_api_key = ([EvValidateToken key], inl e))
  /\ (forall token_info body rpc_request,
        validate_token db key = inr (Some token_info) ->
        json request = inr body ->
        JSONRPCRequest_init rt body = inr rpc_request ->
        create_default_registry rt = inl e ->
        outcome (mcp_handler rt request db settings x_api_key) = inl e
        /\ ~ In EvCommit (trace (mcp_handler rt request db settings x_api_key))).
Proof.
  intros Hkey. split.
  - intros Hval. unfold mcp_handler, bind, call. rewrite Hkey, Hval. reflexivity.
  - intros token_info body rpc_request Hval Hjson Hinit Hreg.
    rewrite (pipeline_registry_failure rt request db settings x_api_key key
               token_info Hkey Hval body rpc_request Hjson Hinit e Hreg).
    split; [reflexivity|]. simpl.
    intros [H|[H|[H|[H|[]]]]]; discriminate H.
Qed.

Lemma collaborator_errors_propagate_witness :
  mcp_handler Demo.rt (Demo.request Demo.body_ping)
    {| validate_token := fun _ => inl (OtherException "database is down");
       commit := inr tt; rollback := inr tt |}
    Demo.settings (Some "reader-key")
  = ([EvValidateToken "reader-key"], inl (OtherException "database is down")).
Proof.
  exact (proj1 (collaborator_errors_propagate Demo.rt (Demo.request Demo.body_ping)
                  {| validate_token := fun _ => inl (OtherException "database is down");
                     commit := inr tt; rollback := inr tt |}
                  Demo.settings (Some "reader-key") "reader-key"
                  (OtherException "database is down") eq_refl)
           eq_refl).
Defined.

Lemma pipeline_parse_failure (rt : Runtime) (request : Request) (db : Session)
    (settings : obj) (x_api_key : option string) (key : string)
    (token_info : MCPTokenInfo) (e : exn) :
  header_present x_api_key = Some key ->
  validate_token db key = inr (Some token_info) ->
  json request = inl e ->
  mcp_handler rt request db settings x_api_key
  = ([EvValidateToken key; EvRequestJson],
     inr (model_dump (JSONRPCResponse_error JSONRPC_PARSE_ERROR
                        ("Failed to parse JSON: " ++ exn_str e)))).
Proof.
  intros Hkey Hval Hjson.
  unfold mcp_handler, try_or_return, try_except, bind, call, ret.
  rewrite Hkey, Hval, Hjson. reflexivity.
Qed.

(** X17. The session is committed exactly when the request reached the
    dispatcher, whether [handle] then answered with a result or with an
    error; the early answers (credential, parse, shape) commit nothing. *)
Theorem commit_iff_dispatched (rt : Runtime) (request : Request) (db : Session)
    (settings : obj) (x_api_key : option string) :
  In EvCommit (trace (mcp_handler rt request db settings x_api_key))
  <-> exists key token_info body rpc_request registry,
        header_present x_api_key = Some key
        /\ validate_token db key = inr (Some token_info)
        /\ json request = inr body
        /\ JSONRPCRequest_init rt body = inr rpc_request
        /\ create_default_registry rt = inr registry.
Proof.
  split.
  - destruct (header_present x_api_key) as [key|] eqn:Hkey.
    2:{ rewrite (pipeline_missing_header _ _ _ _ _ Hkey). simpl. tauto. }
    destruct (validate_token db key) as [e|[token_info|]] eqn:Hval.
    { unfold mcp_handler, bind, call. rewrite Hkey, Hval. simpl.
      intros [H|[]]. discriminate H. }
    2:{ rewrite (pipeline_rejected_token _ _ _ _ _ key Hkey Hval). simpl.
        intros [H|[]]. discriminate H. }
    destruct (json request) as [e|body] eqn:Hjson.
    { rewrite (pipeline_parse_failure rt request db settings x_api_key key
                 token_info e Hkey Hval Hjson). simpl.
      intros [H|[H|[]]]; discriminate H. }
    destruct (JSONRPCRequest_init rt body) as [e|rpc_request] eqn:Hinit.
    { rewrite (pipeline_invalid_request rt request db settings x_api_key key
                 token_info body e Hkey Hval Hjson Hinit). simpl.
      intros [H|[H|[]]]; discriminate H. }
    destruct (create_default_registry rt) as [e|registry] eqn:Hreg.
    { rewrite (pipeline_registry_failure rt request db settings x_api_key key
                 token_info Hkey Hval body rpc_request Hjson Hinit e Hreg). simpl.
      intros [H|[H|[H|[H|[]]]]]; discriminate H. }
    intros _. exists key, token_info, body, rpc_request, registry. auto.
  - intros (key & token_info & body & rpc_request & registry
            & Hkey & Hval & Hjson & Hinit & Hreg).
    match goal with
    | |- _ =>
        destruct (handle_returns rt
                    {| _db := db; _settings := settings; _token_info := token_info;
                       _request := request; _tool_registry := registry |}
                    rpc_request) as [resp [Hresp _]]
    end.
    destruct (handle rt _ rpc_request) as [t r] eqn:Hh.
    simpl in Hresp. subst r.
    rewrite (pipeline_run rt request db settings x_api_key key token_info Hkey Hval
               body rpc_request Hjson Hinit registry Hreg t resp Hh).
    destruct (commit db) as [e|u]; unfold trace; cbn [fst];
      rewrite !in_app_iff; right; right; simpl; auto.
Qed.

(** X18. Every envelope the endpoint returns is a dict of the four keys
    [jsonrpc], [result], [error] and [id], in this order, with the version
    ["2.0"]; the id is [None], a string or an integer. *)
Theorem emitted_envelope_shape (rt : Runtime) (request : Request) (db : Session)
    (settings : obj) (x_api_key : option string) (v : pyval) :
  outcome (mcp_handler rt request db settings x_api_key) = inr v ->
  exists result error id,
    v = PDict [("jsonrpc", PStr "2.0"); ("result", result); ("error", error);
               ("id", id)]
    /\ (id = PNone \/ (exists s, id = PStr s) \/ (exists z, id = PInt z)).
Proof.
  intros Hv.
  destruct (pipeline_emits rt request db settings x_api_key v Hv)
    as [resp [-> Hfrom]].
  assert (Hversion : resp_jsonrpc resp = "2.0").
  { destruct Hfrom as [[code [message ->]]|[self [rpc_request Hresp]]];
      [reflexivity|].
    destruct (dict_get (req_method rpc_request) (handlers rt self))
      as [handler|] eqn:Hres.
    - rewrite (handle_outcome rt self rpc_request handler Hres) in Hresp.
      inversion Hresp.
      destruct (outcome (handler _)) as [[c m d|text]|result]; reflexivity.
    - rewrite (handle_unresolved rt self rpc_request Hres) in Hresp.
      inversion Hresp. reflexivity. }
  exists (resp_result resp), (dump_error (resp_error resp)), (dump_id (resp_id resp)).
  split.
  - unfold model_dump. rewrite Hversion. reflexivity.
  - destruct (resp_id resp) as [[s|z]|]; simpl; eauto.
Qed.

Lemma emitted_envelope_shape_witness :
  exists result error id,
    PDict [("jsonrpc", PStr "2.0"); ("result", PDict []); ("error", PNone);
           ("id", PStr "a")]
    = PDict [("jsonrpc", PStr "2.0"); ("result", result); ("error", error);
             ("id", id)]
    /\ (id = PNone \/ (exists s, id = PStr s) \/ (exists z, id = PInt z)).
Proof.
  apply (emitted_envelope_shape Demo.rt
           (Demo.request (PDict [("method", PStr "notifications/initialized");
                                 ("id", PStr "a")]))
           Demo.db Demo.settings (Some "reader-key")).
  reflexivity.
Defined.

(** X19. The dump loses nothing: two responses with the same dump are the
    same response. *)
Theorem model_dump_injective (r r' : JSONRPCResponse) :
  model_dump r = model_dump r' -> r = r'.
Proof.
  destruct r as [j res err i], r' as [j' res' err' i'].
  unfold model_dump. simpl. intros H. inversion H; subst.
  f_equal.
  - destruct err as [[c m d]|], err' as [[c' m' d']|]; simpl in *;
      try discriminate; try reflexivity.
    match goal with H' : PDict _ = PDict _ |- _ => inversion H' end.
    reflexivity.
  - destruct i as [[s|z]|], i' as [[s'|z']|]; simpl in *;
      try discriminate; try reflexivity;
      match goal with H' : _ = _ :> pyval |- _ => inversion H' end; reflexivity.
Qed.

Lemma model_dump_injective_witness :
  make_success_response (PDict []) (Some (IdInt 1))
  = {| resp_jsonrpc := "2.0"; resp_result := PDict []; resp_error := None;
       resp_id := Some (IdInt 1) |}.
Proof.
  apply (model_dump_injective (make_success_response (PDict []) (Some (IdInt 1)))).
  reflexivity.
Defined.

(** X20. The version tag is not checked: a body that validates with
    [jsonrpc] ["2.0"] validates with any other string in its place, and is
    dispatched to the same answer. *)
Theorem version_tag_not_checked (rt : Runtime) (self : MCPHandler)
    (d : dict pyval) (version : string) (req : JSONRPCRequest) :
  JSONRPCRequest_init rt (PDict (("jsonrpc", PStr "2.0") :: d)) = inr req ->
  exists req',
    JSONRPCRequest_init rt (PDict (("jsonrpc", PStr version) :: d)) = inr req'
    /\ req_jsonrpc req' = version
    /\ handle rt self req' = handle rt self req.
Proof.
  unfold JSONRPCRequest_init, field_jsonrpc, field_method, field_params, field_id.
  cbn [dict_get]. cbn.
  destruct (dict_get "method" d) as [[| | |m| |]|]; try discriminate.
  destruct (dict_get "params" d) as [[| | | | |p]|]; try discriminate;
    destruct (dict_get "id" d) as [[|b|z|s| |]|]; try discriminate;
    intros H; inversion H; subst; clear H;
    eexists; repeat split.
Qed.

Lemma version_tag_not_checked_witness :
  exists req',
    JSONRPCRequest_init Demo.rt
      (PDict [("jsonrpc", PStr "1.0"); ("method", PStr "ping"); ("id", PInt 42)])
    = inr req'
    /\ req_jsonrpc req' = "1.0"
    /\ handle Demo.rt (Demo.handler Demo.reader) req'
       = handle Demo.rt (Demo.handler Demo.reader)
           {| req_jsonrpc := "2.0"; req_method := "ping"; req_params := None;
              req_id := Some (IdInt 42) |}.
Proof.
  apply (version_tag_not_checked Demo.rt (Demo.handler Demo.reader)
           [("method", PStr "ping"); ("id", PInt 42)] "1.0").
  reflexivity.
Defined.

Lemma commit_iff_dispatched_witness :
  In EvCommit (trace (mcp_handler Demo.rt (Demo.request Demo.body_ping) Demo.db
                        Demo.settings (Some "reader-key"))).
Proof.
  apply (commit_iff_dispatched Demo.rt (Demo.request Demo.body_ping) Demo.db
           Demo.settings (Some "reader-key")).
  exists "reader-key", Demo.reader, Demo.body_ping,
    {| req_jsonrpc := "2.0"; req_method := "ping"; req_params := None;
       req_id := Some (IdInt 42) |}, Demo.registry.
  repeat split; reflexivity.
Defined.

(** * Properties of the token routes *)

Section TokenRoutesFacts.

Import TokenRoutes.

Variables (manager : MCPTokensManager) (db : Db).

(** X21. The listing counts what it lists: [total] is the number of tokens
    in the answer, which are the manager's tokens in the manager's order,
    each with a list of scopes (empty when the stored one is [None]); the
    route writes nothing. *)
Theorem list_tokens_counts (include_inactive : bool) (rows : list TokenRow) :
  list_tokens manager include_inactive = inr rows ->
  exists answer,
    list_mcp_tokens manager include_inactive
    = ([EvLog DEBUG; EvListTokens include_inactive], inr answer)
    /\ total answer = length rows
    /\ total answer = length (tokens answer)
    /\ map info_id (tokens answer) = map row_id rows
    /\ (forall i row, nth_error rows i = Some row ->
          exists info, nth_error (tokens answer) i = Some info
                       /\ info_scopes info = match row_scopes row with
                                             | Some l => l
                                             | None => []
                                             end).
Proof.
  intros Hrows. unfold list_mcp_tokens, propagate, try_except, bind, call, log, ret.
  rewrite Hrows. simpl. eexists. split; [reflexivity|]. simpl.
  rewrite length_map, map_map. repeat split.
  intros i row Hi. exists (token_info_of row). split.
  - rewrite nth_error_map, Hi. reflexivity.
  - reflexivity.
Qed.

(** X22. A token the manager does not find is a 404 with the id in the
    detail; a token it finds is answered with its fields, read and not
    written. *)
Theorem get_token_not_found (token_id : UUID) :
  (get_token manager token_id = inr None ->
     get_mcp_token manager token_id
     = ([EvGetToken token_id],
        inl (HTTPException 404 ("Token " ++ token_id ++ " not found"))))
  /\ (forall row,
        get_token manager token_id = inr (Some row) ->
        get_mcp_token manager token_id
        = ([EvGetToken token_id], inr (token_info_of row)))
  /\ (forall e,
        get_token manager token_id = inl e ->
        get_mcp_token manager token_id
        = ([EvGetToken token_id], inl (Propagated e))).
Proof.
  unfold get_mcp_token, propagate, try_except, bind, call, raise, ret.
  repeat split; intros; rewrite H; reflexivity.
Qed.

(** X23. Revoking and deleting commit exactly when the manager found the
    token.  A token that is not found is a 404 and nothing is committed; a
    commit that fails goes through as it is, without a rollback. *)
Theorem revoke_commits_iff_found (token_id : UUID) :
  (In EvDbCommit (fst (revoke_mcp_token manager db token_id))
     <-> revoke_token manager token_id = inr true)
  /\ (In EvDbCommit (fst (delete_mcp_token manager db token_id))
        <-> delete_token manager token_id = inr true)
  /\ (revoke_token manager token_id = inr false ->
        snd (revoke_mcp_token manager db token_id)
        = inl (HTTPException 404 ("Token " ++ token_id ++ " not found")))
  /\ (delete_token manager token_id = inr false ->
        snd (delete_mcp_token manager db token_id)
        = inl (HTTPException 404 ("Token " ++ token_id ++ " not found")))
  /\ (forall e,
        revoke_token manager token_id = inr true -> db_commit db = inl e ->
        revoke_mcp_token manager db token_id
        = ([EvLog INFO; EvRevokeToken token_id; EvDbCommit], inl (Propagated e)))
  /\ (forall e,
        delete_token manager token_id = inr true -> db_commit db = inl e ->
        delete_mcp_token manager db token_id
        = ([EvLog INFO; EvDeleteToken token_id; EvDbCommit], inl (Propagated e))).
Proof.
  unfold revoke_mcp_token, delete_mcp_token, propagate, try_except, bind, call,
    log, raise, ret.
  split; [|split; [|split; [|split; [|split]]]].
  - destruct (revoke_token manager token_id) as [e|[|]]; simpl.
    + split; [intros [H|[H|[]]]; discriminate H | discriminate].
    + split; [reflexivity|]. intros _.
      destruct (db_commit db) as [e|[]]; simpl; auto.
    + split; [intros [H|[H|[]]]; discriminate H | discriminate].
  - destruct (delete_token manager token_id) as [e|[|]]; simpl.
    + split; [intros [H|[H|[]]]; discriminate H | discriminate].
    + split; [reflexivity|]. intros _.
      destruct (db_commit db) as [e|[]]; simpl; auto.
    + split; [intros [H|[H|[]]]; discriminate H | discriminate].
  - intros ->. reflexivity.
  - intros ->. reflexivity.
  - intros e -> Hc. simpl. rewrite Hc. reflexivity.
  - intros e -> Hc. simpl. rewrite Hc. reflexivity.
Qed.

(** X24. The plaintext token is handed out only after a commit that went
    through: when [create_mcp_token] returns, the manager generated the
    token, with the email of the current user as its creator, the session
    was committed, and the answer carries the generated token and id. *)
Theorem create_returns_only_committed (token_data : MCPTokenCreate)
    (current_user : option User) (answer : MCPTokenResponse) :
  snd (create_mcp_token manager db token_data current_user) = inr answer ->
  let created_by := match current_user with Some u => email u | None => None end in
  exists generated,
    generate_token manager (create_name token_data) (create_scopes token_data)
      created_by (create_expires_days token_data) = inr generated
    /\ db_commit db = inr tt
    /\ out_token answer = gen_token generated
    /\ out_id answer = gen_id generated
    /\ fst (create_mcp_token manager db token_data current_user)
       = [EvLog INFO;
          EvGenerateToken (create_name token_data) (create_scopes token_data)
            created_by (create_expires_days token_data);
          EvDbCommit; EvLog INFO].
Proof.
  intros H created_by.
  unfold create_mcp_token, propagate, try_except, bind, call, log, raise, ret
    in H |- *.
  fold created_by in H |- *.
  destruct (generate_token manager _ _ created_by _) as [e|generated]; simpl in *.
  { destruct (db_rollback db) as [e'|[]]; discriminate H. }
  destruct (db_commit db) as [e|[]]; simpl in *.
  { destruct (db_rollback db) as [e'|[]]; discriminate H. }
  inversion H; subst. exists generated. repeat split.
Qed.

(** X25. A creation that fails is rolled back and answered with a 500: when
    the manager raises, before any commit, and when the commit raises, the
    session is rolled back once and the route raises an [HTTPException] with
    status 500 and the text of the exception; when the rollback raises too,
    its exception goes through instead. *)
Theorem create_failure_rolls_back (token_data : MCPTokenCreate)
    (current_user : option User) (e : raised) :
  let created_by := match current_user with Some u => email u | None => None end in
  let generate := generate_token manager (create_name token_data)
                    (create_scopes token_data) created_by
                    (create_expires_days token_data) in
  let gen_ev := EvGenerateToken (create_name token_data) (create_scopes token_data)
                  created_by (create_expires_days token_data) in
  let after_rollback :=
    match db_rollback db with
    | inr _ => inl (HTTPException 500 ("Failed to create token: " ++ raised_str e))
    | inl e' => inl (Propagated e')
    end in
  (generate = inl e ->
     create_mcp_token manager db token_data current_user
     = ([EvLog INFO; gen_ev; EvLog ERROR; EvDbRollback], after_rollback))
  /\ (forall generated,
        generate = inr generated ->
        db_commit db = inl e ->
        create_mcp_token manager db token_data current_user
        = ([EvLog INFO; gen_ev; EvDbCommit; EvLog ERROR; EvDbRollback],
           after_rollback)).
Proof.
  intros created_by generate gen_ev after_rollback.
  unfold create_mcp_token, propagate, try_except, bind, call, log, raise, ret.
  fold created_by. fold generate. fold gen_ev. split.
  - intros ->. unfold after_rollback.
    destruct (db_rollback db) as [e'|[]]; reflexivity.
  - intros generated -> ->. unfold after_rollback.
    destruct (db_rollback db) as [e'|[]]; reflexivity.
Qed.

End TokenRoutesFacts.

Lemma list_tokens_counts_witness :
  exists answer,
    TokenRoutes.list_mcp_tokens TokenDemo.manager false
    = ([TokenRoutes.EvLog TokenRoutes.DEBUG; TokenRoutes.EvListTokens false],
       inr answer)
    /\ TokenRoutes.total answer = 2%nat
    /\ map TokenRoutes.info_scopes (TokenRoutes.tokens answer) = [[]; ["data:read"]].
Proof.
  destruct (list_tokens_counts TokenDemo.manager false
              [TokenDemo.first_row; TokenDemo.second_row] eq_refl)
    as (answer & Hrun & Htotal & _).
  exists answer. split; [exact Hrun|]. split; [exact Htotal|].
  unfold TokenRoutes.list_mcp_tokens in Hrun. inversion Hrun. reflexivity.
Defined.

Lemma get_token_not_found_witness :
  TokenRoutes.get_mcp_token TokenDemo.manager TokenDemo.second_id
  = ([TokenRoutes.EvGetToken TokenDemo.second_id],
     inl (TokenRoutes.HTTPException 404
            "Token 22222222-2222-2222-2222-222222222222 not found")).
Proof.
  exact (proj1 (get_token_not_found TokenDemo.manager TokenDemo.second_id) eq_refl).
Defined.

Lemma revoke_commits_iff_found_witness :
  snd (TokenRoutes.revoke_mcp_token TokenDemo.manager TokenDemo.db TokenDemo.second_id)
  = inl (TokenRoutes.HTTPException 404
           "Token 22222222-2222-2222-2222-222222222222 not found")
  /\ In TokenRoutes.EvDbCommit
       (fst (TokenRoutes.revoke_mcp_token TokenDemo.manager TokenDemo.db
               TokenDemo.first_id)).
Proof.
  destruct (revoke_commits_iff_found TokenDemo.manager TokenDemo.db
              TokenDemo.second_id) as (_ & _ & Hmissing & _).
  destruct (revoke_commits_iff_found TokenDemo.manager TokenDemo.db
              TokenDemo.first_id) as (Hfound & _).
  split; [exact (Hmissing eq_refl) | exact (proj2 Hfound eq_refl)].
Defined.

Lemma create_returns_only_committed_witness :
  exists generated,
    TokenRoutes.generate_token TokenDemo.manager "reader" ["data:read"]
      (Some "ada@example.org") (Some 30) = inr generated
    /\ TokenRoutes.db_commit TokenDemo.db = inr tt
    /\ "mcp_plaintext" = TokenRoutes.gen_token generated.
Proof.
  destruct (create_returns_only_committed TokenDemo.manager TokenDemo.db
              TokenDemo.new_token (Some TokenDemo.ada)
              {| TokenRoutes.out_id := TokenDemo.second_id;
                 TokenRoutes.out_name := "reader";
                 TokenRoutes.out_token := "mcp_plaintext";
                 TokenRoutes.out_scopes := ["data:read"];
                 TokenRoutes.out_created_at := "2025-02-01T00:00:00";
                 TokenRoutes.out_expires_at := None |} eq_refl)
    as (generated & Hgen & Hcommit & Htoken & _).
  exists generated. auto.
Defined.

Lemma create_failure_rolls_back_witness :
  TokenRoutes.create_mcp_token TokenDemo.broken_manager TokenDemo.db
    TokenDemo.new_token None
  = ([TokenRoutes.EvLog TokenRoutes.INFO;
      TokenRoutes.EvGenerateToken "reader" ["data:read"] None (Some 30);
      TokenRoutes.EvLog TokenRoutes.ERROR; TokenRoutes.EvDbRollback],
     inl (TokenRoutes.HTTPException 500 "Failed to create token: duplicate name")).
Proof.
  exact (proj1 (create_failure_rolls_back TokenDemo.broken_manager TokenDemo.db
                  TokenDemo.new_token None (TokenRoutes.Raised "duplicate name"))
           eq_refl).
Defined.

(** * Properties of the migration *)

Lemma mem_app (x : string) (a b : list string) :
  Str.mem x (a ++ b) = (Str.mem x a || Str.mem x b)%bool.
Proof.
  induction a as [|y a IH]; simpl; [reflexivity|].
  destruct (y =? x)%string; [reflexivity | exact IH].
Qed.

(** The four runs of [upgrade] over an existing enum. *)
Lemma upgrade_existing (labels : list string) :
  Migration.upgrade (Some labels)
  = match Str.mem "active" labels, Str.mem "deleted" labels with
    | true, true => ([], Some labels)
    | true, false =>
        ([Migration.AddValueIfNotExists "deleted"], Some (labels ++ ["deleted"])%list)
    | false, true =>
        ([Migration.AddValueIfNotExists "active"], Some (labels ++ ["active"])%list)
    | false, false =>
        ([Migration.AddValueIfNotExists "active";
          Migration.AddValueIfNotExists "deleted"],
         Some ((labels ++ ["active"]) ++ ["deleted"])%list)
    end.
Proof.
  unfold Migration.upgrade, Migration.select_type, Migration.select_labels,
    Migration.required_values.
  cbn [negb Migration.add_missing].
  destruct (Str.mem "active" labels) eqn:Ha;
    destruct (Str.mem "deleted" labels) eqn:Hd;
    cbn [negb Migration.add_missing Migration.add_value_if_not_exists app];
    rewrite ?Ha, ?Hd, ?mem_app, ?Ha, ?Hd; reflexivity.
Qed.

Lemma upgrade_required_present (c : Migration.catalog) :
  exists labels,
    snd (Migration.upgrade c) = Some labels
    /\ Str.mem "active" labels = true /\ Str.mem "deleted" labels = true.
Proof.
  destruct c as [labels|].
  - rewrite upgrade_existing.
    destruct (Str.mem "active" labels) eqn:Ha;
      destruct (Str.mem "deleted" labels) eqn:Hd;
      eexists; (split; [reflexivity|]);
      rewrite ?mem_app, ?Ha, ?Hd; split; reflexivity.
  - eexists. split; [reflexivity|]. split; reflexivity.
Qed.


(** X27. [upgrade] keeps what is there: the labels of an existing enum stay,
    in their order, and after them come exactly the required labels that
    were missing, one [ALTER TYPE ... ADD VALUE] each and no other
    statement. *)
Theorem upgrade_preserves_labels (labels : list string) :
  exists added,
    Migration.upgrade (Some labels)
    = (map Migration.AddValueIfNotExists added, Some (labels ++ added)%list)
    /\ added = filter (fun v => negb (Str.mem v labels)) Migration.required_values.
Proof.
  rewrite upgrade_existing. unfold Migration.required_values. cbn [filter].
  destruct (Str.mem "active" labels); destruct (Str.mem "deleted" labels);
    cbn [negb]; eexists; (split; [|reflexivity]);
    cbn [map]; rewrite <- ?app_assoc, ?app_nil_r; reflexivity.
Qed.

(** X28. [upgrade] is idempotent: run again, it sends no statement and
    leaves the catalog as the first run left it; and [downgrade] leaves the
    enum in place. *)
Theorem upgrade_idempotent (c : Migration.catalog) :
  Migration.upgrade (snd (Migration.upgrade c)) = ([], snd (Migration.upgrade c))
  /\ snd (Migration.downgrade (snd (Migration.upgrade c)))
     = snd (Migration.upgrade c).
Proof.
  split; [|reflexivity].
  destruct (upgrade_required_present c) as (labels & -> & Ha & Hd).
  rewrite upgrade_existing, Ha, Hd. reflexivity.
Qed.
